(** * MicroMentor training script: a shallow embedding of [train_model.py]

    The script is a linear pipeline over TensorFlow/Keras, NumPy, [json],
    [os] and [time].  The embedding keeps the script's own control flow,
    data flow and constants, and threads explicitly the state the script
    touches:

    - the trainer object ([config], [model], [history]);
    - the file system (directories and file contents);
    - NumPy's global random generator;
    - the wall clock, as the sequence of values [time.time()] returns;
    - a trace of what is printed and of the calls made into the framework.

    The numerical kernels of the framework (pretrained weights, weight
    initialisation, the optimiser's result, the bytes produced by the
    serialisers and by the lite converter) are parameters of the
    development.  Framework calls are taken to return; the exceptions that
    are modelled are the ones the script's own code can provoke
    ([None] dereference, missing key, missing file or directory, malformed
    JSON, fitting a model that was never compiled).

    The file system of the model holds the files the script names itself
    and, for the saved-model export, [saved_model.pb].  What the framework
    keeps on disk besides (the downloaded backbone weights in its cache
    directory, the companions of [saved_model.pb] in the export directory)
    is not represented.  Likewise the compile settings of a model are the
    arguments given to [compile]: the running state of the optimiser, such
    as a learning rate a callback lowers during [fit], is not represented.

    Wall-clock readings and durations are exact rationals: rounding of
    binary64 is not modelled for them.  The one floating point computation
    that decides control flow, [int(0.8 * num_samples)], is evaluated in
    binary64 with the Standard Library's [SpecFloat]. *)

From Stdlib Require Import ZArith QArith SpecFloat Ascii String DecimalString Lia.
From stdpp Require Import gmap strings list.

(* ===================================================================== *)
(** * Python runtime: exceptions and results *)
(* ===================================================================== *)

Inductive Exn :=
  | FileNotFoundError (path : string)
  | FileExistsError (path : string)
  | NotADirectoryError (path : string)
  | IsADirectoryError (path : string)
  | JSONDecodeError
  | KeyError (key : string)
  | TypeError
  | ValueError
  | IndexError
  | AttributeError (attr : string)
  | RuntimeError (msg : string).

Inductive Result (A : Type) :=
  | Ok (a : A)
  | Raise (e : Exn).
Arguments Ok {A} a.
Arguments Raise {A} e.

Definition is_ok {A} (r : Result A) : bool :=
  match r with Ok _ => true | Raise _ => false end.

(* ===================================================================== *)
(** * JSON values and Python dictionaries *)
(* ===================================================================== *)

(** What [json.load] can return, numbers restricted to integers.  A Python
    [dict] keeps insertion order, so an object is an association list. *)
#[warnings="-register-all"]
Inductive JValue :=
  | JNull
  | JBool (b : bool)
  | JInt (z : Z)
  | JStr (s : string)
  | JArr (items : list JValue)
  | JObj (members : list (string * JValue)).

Fixpoint dict_get {V} (k : string) (d : list (string * V)) : option V :=
  match d with
  | [] => None
  | (k', v) :: d' => if String.eqb k k' then Some v else dict_get k d'
  end.

(** [d[k] = v]: an existing key keeps its position, a new key goes last. *)
Fixpoint dict_set {V} (k : string) (v : V) (d : list (string * V))
  : list (string * V) :=
  match d with
  | [] => [(k, v)]
  | (k', v') :: d' =>
      if String.eqb k k' then (k, v) :: d' else (k', v') :: dict_set k v d'
  end.

(** [obj[key]] for a string key. *)
Definition getitem (obj : JValue) (key : string) : Result JValue :=
  match obj with
  | JObj d =>
      match dict_get key d with
      | Some v => Ok v
      | None => Raise (KeyError key)
      end
  | _ => Raise TypeError
  end.

(* ===================================================================== *)
(** * [json.dump] with [indent=2] and [json.load] *)
(* ===================================================================== *)

Module Json.

Definition hex_digit (n : nat) : ascii :=
  match n with
  | 0 => "0" | 1 => "1" | 2 => "2" | 3 => "3" | 4 => "4" | 5 => "5"
  | 6 => "6" | 7 => "7" | 8 => "8" | 9 => "9" | 10 => "a" | 11 => "b"
  | 12 => "c" | 13 => "d" | 14 => "e" | _ => "f"
  end%char.

(** [ensure_ascii=True]: everything outside [' '..'~'] is escaped. *)
Definition escape_char (c : ascii) : string :=
  let n := nat_of_ascii c in
  if Nat.eqb n 34 then String "\" (String c "")
  else if Nat.eqb n 92 then "\\"
  else if Nat.eqb n 10 then "\n"
  else if Nat.eqb n 13 then "\r"
  else if Nat.eqb n 9 then "\t"
  else if Nat.eqb n 8 then "\b"
  else if Nat.eqb n 12 then "\f"
  else if (Nat.leb 32 n && Nat.leb n 126)%bool then String c ""
  else "\u00" +:+ String (hex_digit (n / 16)) (String (hex_digit (n mod 16)) "").

Fixpoint escape (s : string) : string :=
  match s with
  | "" => ""
  | String c s' => escape_char c +:+ escape s'
  end.

Definition dquote : string := String (ascii_of_nat 34) "".

Definition quote (s : string) : string := dquote +:+ escape s +:+ dquote.

Definition newline : string := String (ascii_of_nat 10) "".

Fixpoint pad (level : nat) : string :=
  match level with
  | O => ""
  | S n => "  " +:+ pad n
  end.

Fixpoint join (sep : string) (parts : list string) : string :=
  match parts with
  | [] => ""
  | [p] => p
  | p :: rest => p +:+ sep +:+ join sep rest
  end.

Definition int_repr (z : Z) : string := NilZero.string_of_int (Z.to_int z).

(** [json.dumps(v, indent=2)] at nesting depth [level]: one item per line,
    [", "] never used, [": "] between a key and its value. *)
Fixpoint dumps_at (level : nat) (v : JValue) : string :=
  match v with
  | JNull => "null"
  | JBool true => "true"
  | JBool false => "false"
  | JInt z => int_repr z
  | JStr s => quote s
  | JArr [] => "[]"
  | JArr items =>
      "[" +:+ newline
      +:+ join ("," +:+ newline)
           (map (fun x => pad (S level) +:+ dumps_at (S level) x) items)
      +:+ newline +:+ pad level +:+ "]"
  | JObj [] => "{}"
  | JObj members =>
      "{" +:+ newline
      +:+ join ("," +:+ newline)
           (map (fun kv => pad (S level) +:+ quote (fst kv) +:+ ": "
                           +:+ dumps_at (S level) (snd kv)) members)
      +:+ newline +:+ pad level +:+ "}"
  end.

Definition dumps (v : JValue) : string := dumps_at 0 v.

(** ** The reader.  Numbers with a fraction or an exponent, the literals
    [NaN] and [Infinity], and [\u] escapes above [00ff] are outside the
    modelled fragment; such a text is rejected here. *)

Inductive Token :=
  | TLBrace | TRBrace | TLBracket | TRBracket | TColon | TComma
  | TString (s : string)
  | TInt (z : Z)
  | TTrue | TFalse | TNull.

Definition hex_value (c : ascii) : option nat :=
  let n := nat_of_ascii c in
  if (Nat.leb 48 n && Nat.leb n 57)%bool then Some (n - 48)
  else if (Nat.leb 97 n && Nat.leb n 102)%bool then Some (n - 87)
  else if (Nat.leb 65 n && Nat.leb n 70)%bool then Some (n - 55)
  else None.

(** The body of a string literal, after its opening quote: the decoded
    characters and the text after the closing quote. *)
Fixpoint lex_string (s : string) : option (string * string) :=
  match s with
  | "" => None
  | String c rest =>
      let n := nat_of_ascii c in
      if Nat.eqb n 34 then Some ("", rest)
      else if Nat.eqb n 92 then
        match rest with
        | String e rest' =>
            let cont (d : ascii) (r : option (string * string)) :=
              match r with
              | Some (body, tl) => Some (String d body, tl)
              | None => None
              end in
            let k := nat_of_ascii e in
            if Nat.eqb k 34 then cont e (lex_string rest')
            else if Nat.eqb k 92 then cont e (lex_string rest')
            else if Nat.eqb k 47 then cont e (lex_string rest')
            else if Nat.eqb k 98 then cont (ascii_of_nat 8) (lex_string rest')
            else if Nat.eqb k 102 then cont (ascii_of_nat 12) (lex_string rest')
            else if Nat.eqb k 110 then cont (ascii_of_nat 10) (lex_string rest')
            else if Nat.eqb k 114 then cont (ascii_of_nat 13) (lex_string rest')
            else if Nat.eqb k 116 then cont (ascii_of_nat 9) (lex_string rest')
            else if Nat.eqb k 117 then
              match rest' with
              | String "0" (String "0" (String h (String l rest''))) =>
                  match hex_value h, hex_value l with
                  | Some a, Some b =>
                      cont (ascii_of_nat (16 * a + b)) (lex_string rest'')
                  | _, _ => None
                  end
              | _ => None
              end
            else None
        | "" => None
        end
      else if Nat.ltb n 32 then None
      else
        match lex_string rest with
        | Some (body, tl) => Some (String c body, tl)
        | None => None
        end
  end.

Definition is_digit (c : ascii) : bool :=
  let n := nat_of_ascii c in (Nat.leb 48 n && Nat.leb n 57)%bool.

(** The digits at the head of [s], accumulated on [acc]. *)
Fixpoint lex_digits (s : string) (acc : Z) : Z * string :=
  match s with
  | String c rest =>
      if is_digit c
      then lex_digits rest (10 * acc + Z.of_nat (nat_of_ascii c - 48))%Z
      else (acc, s)
  | "" => (acc, s)
  end.

Definition starts_number_tail (s : string) : bool :=
  match s with
  | String c _ =>
      let n := nat_of_ascii c in
      (Nat.eqb n 46 || Nat.eqb n 101 || Nat.eqb n 69)%bool
  | "" => false
  end.

(** An unsigned integer literal: no leading zero unless it is [0]. *)
Definition lex_nat (s : string) : option (Z * string) :=
  match s with
  | String c rest =>
      if is_digit c then
        let '(z, tl) := lex_digits s 0%Z in
        if (Nat.eqb (nat_of_ascii c) 48
            && negb (String.eqb tl rest))%bool then None
        else if starts_number_tail tl then None
        else Some (z, tl)
      else None
  | "" => None
  end.

Fixpoint lex (fuel : nat) (s : string) : option (list Token) :=
  match fuel with
  | O => None
  | S fuel' =>
      let push (t : Token) (rest : string) :=
        match lex fuel' rest with
        | Some ts => Some (t :: ts)
        | None => None
        end in
      match s with
      | "" => Some []
      | String c rest =>
          let n := nat_of_ascii c in
          if (Nat.eqb n 32 || Nat.eqb n 9 || Nat.eqb n 10 || Nat.eqb n 13)%bool
          then lex fuel' rest
          else if Nat.eqb n 123 then push TLBrace rest
          else if Nat.eqb n 125 then push TRBrace rest
          else if Nat.eqb n 91 then push TLBracket rest
          else if Nat.eqb n 93 then push TRBracket rest
          else if Nat.eqb n 58 then push TColon rest
          else if Nat.eqb n 44 then push TComma rest
          else if Nat.eqb n 34 then
            match lex_string rest with
            | Some (body, tl) => push (TString body) tl
            | None => None
            end
          else if Nat.eqb n 45 then
            match lex_nat rest with
            | Some (z, tl) => push (TInt (- z)) tl
            | None => None
            end
          else if is_digit c then
            match lex_nat s with
            | Some (z, tl) => push (TInt z) tl
            | None => None
            end
          else
            match s with
            | String "t" (String "r" (String "u" (String "e" tl))) =>
                push TTrue tl
            | String "f" (String "a" (String "l" (String "s" (String "e" tl)))) =>
                push TFalse tl
            | String "n" (String "u" (String "l" (String "l" tl))) =>
                push TNull tl
            | _ => None
            end
      end
  end.

(** Recursive descent over the tokens.  A repeated key keeps its first
    position and its last value, as inserting into a [dict] does. *)
Fixpoint parse_value (fuel : nat) (ts : list Token)
  : option (JValue * list Token) :=
  match fuel with
  | O => None
  | S fuel' =>
      match ts with
      | TNull :: tl => Some (JNull, tl)
      | TTrue :: tl => Some (JBool true, tl)
      | TFalse :: tl => Some (JBool false, tl)
      | TInt z :: tl => Some (JInt z, tl)
      | TString s :: tl => Some (JStr s, tl)
      | TLBracket :: TRBracket :: tl => Some (JArr [], tl)
      | TLBracket :: tl =>
          match parse_items fuel' tl with
          | Some (items, tl') => Some (JArr items, tl')
          | None => None
          end
      | TLBrace :: TRBrace :: tl => Some (JObj [], tl)
      | TLBrace :: tl =>
          match parse_members fuel' tl [] with
          | Some (members, tl') => Some (JObj members, tl')
          | None => None
          end
      | _ => None
      end
  end
with parse_items (fuel : nat) (ts : list Token)
  : option (list JValue * list Token) :=
  match fuel with
  | O => None
  | S fuel' =>
      match parse_value fuel' ts with
      | Some (v, TComma :: tl) =>
          match parse_items fuel' tl with
          | Some (vs, tl') => Some (v :: vs, tl')
          | None => None
          end
      | Some (v, TRBracket :: tl) => Some ([v], tl)
      | _ => None
      end
  end
with parse_members (fuel : nat) (ts : list Token)
                   (acc : list (string * JValue))
  : option (list (string * JValue) * list Token) :=
  match fuel with
  | O => None
  | S fuel' =>
      match ts with
      | TString k :: TColon :: tl =>
          match parse_value fuel' tl with
          | Some (v, TComma :: tl') =>
              parse_members fuel' tl' (dict_set k v acc)
          | Some (v, TRBrace :: tl') => Some (dict_set k v acc, tl')
          | _ => None
          end
      | _ => None
      end
  end.

Definition loads (text : string) : Result JValue :=
  match lex (S (String.length text)) text with
  | Some ts =>
      match parse_value (S (length ts)) ts with
      | Some (v, []) => Ok v
      | _ => Raise JSONDecodeError
      end
  | None => Raise JSONDecodeError
  end.

End Json.

(** The configuration literal of [main]. *)
Definition main_config : JValue :=
  JObj [("output_path", JStr "models"); ("epochs", JInt 5);
        ("batch_size", JInt 32)].


(* ===================================================================== *)
(** * Paths and the file system *)
(* ===================================================================== *)

Definition is_sep (c : ascii) : bool := Nat.eqb (nat_of_ascii c) 47.

Definition starts_with_sep (p : string) : bool :=
  match p with
  | String c _ => is_sep c
  | "" => false
  end.

Fixpoint ends_with_sep (p : string) : bool :=
  match p with
  | "" => false
  | String c "" => is_sep c
  | String _ rest => ends_with_sep rest
  end.

(** [os.path.join(a, b)] on a POSIX system. *)
Definition path_join (a b : string) : string :=
  if starts_with_sep b then b
  else if (String.eqb a "" || ends_with_sep a)%bool then a +:+ b
  else a +:+ "/" +:+ b.

(** The directories a path goes through, outermost first.  Paths are taken
    as written: no [.], [..], repeated separator or link is resolved. *)
Fixpoint ancestors_from (seen rest : string) : list string :=
  match rest with
  | "" => []
  | String c rest' =>
      if is_sep c
      then (if String.eqb seen "" then [] else [seen])
           ++ ancestors_from (seen +:+ "/") rest'
      else ancestors_from (seen +:+ String c "") rest'
  end.

Definition ancestors (p : string) : list string := ancestors_from "" p.

(** The directory holding [p]; the empty path stands for the working
    directory (or the root), which always exists. *)
Definition parent (p : string) : string := List.last (ancestors p) "".

Record FileSystem := {
  dirs : gset string;
  files : gmap string string
}.

Definition is_dir (fs : FileSystem) (p : string) : bool :=
  (String.eqb p "" || bool_decide (p ∈ dirs fs))%bool.

Definition is_file (fs : FileSystem) (p : string) : bool :=
  bool_decide (is_Some (files fs !! p)).

(** [open(path, 'w')], one [write] of [content], then close. *)
Definition write_file (fs : FileSystem) (path content : string)
  : Result FileSystem :=
  if is_file fs (parent path) then Raise (NotADirectoryError path)
  else if negb (is_dir fs (parent path)) then Raise (FileNotFoundError path)
  else if is_dir fs path then Raise (IsADirectoryError path)
  else Ok {| dirs := dirs fs; files := <[path := content]> (files fs) |}.

(** [open(path, 'r')] and reading the whole file. *)
Definition read_file (fs : FileSystem) (path : string) : Result string :=
  match files fs !! path with
  | Some content => Ok content
  | None =>
      if is_dir fs path then Raise (IsADirectoryError path)
      else Raise (FileNotFoundError path)
  end.

(** [os.makedirs(path, exist_ok=True)]. *)
Definition makedirs (fs : FileSystem) (path : string) : Result FileSystem :=
  if existsb (is_file fs) (ancestors path) then Raise (NotADirectoryError path)
  else if is_file fs path then Raise (FileExistsError path)
  else Ok {| dirs := dirs fs ∪ list_to_set (ancestors path) ∪ {[path]};
             files := files fs |}.

(* ===================================================================== *)
(** * Binary64 arithmetic for [int(0.8 * num_samples)] *)
(* ===================================================================== *)

Module Float64.

Definition prec : Z := 53.
Definition emax : Z := 1024.

(** The binary64 number nearest to 0.8: [0x1.999999999999ap-1]. *)
Definition f0_8 : spec_float := S754_finite false 0x1999999999999a (-53).

(** A Python [int] converted for mixed arithmetic; exact below [2^53]. *)
Definition of_int (n : Z) : spec_float :=
  match n with
  | Z0 => S754_zero false
  | Zpos p => S754_finite false p 0
  | Zneg p => S754_finite true p 0
  end.

Definition mul (x y : spec_float) : spec_float := SFmul prec emax x y.

(** [int(x)]: truncation toward zero ([None] for infinities and NaN,
    where Python raises). *)
Definition to_int (x : spec_float) : option Z :=
  match x with
  | S754_zero _ => Some 0%Z
  | S754_finite s m e =>
      let mag := if (0 <=? e)%Z then (Zpos m * 2 ^ e)%Z
                 else (Zpos m / 2 ^ (- e))%Z in
      Some (if s then (- mag)%Z else mag)
  | _ => None
  end.

End Float64.

(* ===================================================================== *)
(** * Keras: layers, symbolic tensors, models *)
(* ===================================================================== *)

Definition Shape := list nat.

Inductive Activation := relu | softmax | sigmoid.

Inductive Callback :=
  | EarlyStopping (monitor : string) (patience : nat)
      (restore_best_weights : bool)
  | ReduceLROnPlateau (monitor : string) (factor : Q) (patience : nat).

Inductive Optimizer :=
  | Adam (learning_rate : Q).

Record Compiled := {
  optimizer : Optimizer;
  loss : list (string * string);
  metrics : list (string * list string)
}.

Inductive Optimize := OptimizeDEFAULT.

Inductive DType := float16 | float32.


(** [keras.utils.to_categorical]: one row per label, a [1] at the label's
    index; a label outside [0, num_classes) is an [IndexError]. *)
Definition one_hot (num_classes label : nat) : list Q :=
  map (fun i => if Nat.eqb i label then 1%Q else 0%Q) (seq 0 num_classes).

Fixpoint to_categorical (labels : list nat) (num_classes : nat)
  : Result (list (list Q)) :=
  match labels with
  | [] => Ok []
  | c :: rest =>
      if Nat.ltb c num_classes then
        match to_categorical rest num_classes with
        | Ok rows => Ok (one_hot num_classes c :: rows)
        | Raise e => Raise e
        end
      else Raise IndexError
  end.

(** Python slices [a[:k]] and [a[k:]] along the first axis. *)
Definition slice_bound {A} (a : list A) (k : Z) : nat :=
  if (k <? 0)%Z then Z.to_nat (Z.max 0 (Z.of_nat (length a) + k))
  else Nat.min (Z.to_nat k) (length a).

Definition slice_to {A} (a : list A) (k : Z) : list A :=
  take (slice_bound a k) a.

Definition slice_from {A} (a : list A) (k : Z) : list A :=
  drop (slice_bound a k) a.

(** [np.mean] of a list of numbers. *)
Definition np_mean (xs : list Q) : Q :=
  fold_right Qplus 0%Q xs / inject_Z (Z.of_nat (length xs)).

(** State and exceptions: a computation over a state [S] returns a value or
    raises, and leaves the state it reached either way. *)
Definition SE (S A : Type) : Type := S -> Result A * S.

#[global] Instance SE_ret {S} : MRet (SE S) := fun A a s => (Ok a, s).

#[global] Instance SE_bind {S} : MBind (SE S) := fun A B f m s =>
  match m s with
  | (Ok a, s') => f a s'
  | (Raise e, s') => (Raise e, s')
  end.

Definition raise {S A} (e : Exn) : SE S A := fun s => (Raise e, s).

Definition from_result {S A} (r : Result A) : SE S A := fun s => (r, s).

Definition from_option {S A} (e : Exn) (o : option A) : SE S A :=
  match o with
  | Some a => mret a
  | None => raise e
  end.

(** [for _ in range(n): acc = body(acc)]. *)
Fixpoint for_range {S A} (n : nat) (body : A -> SE S A) (acc : A) : SE S A :=
  match n with
  | O => mret acc
  | S n' => acc' ← body acc; for_range n' body acc'
  end.

Definition as_str (v : JValue) : Result string :=
  match v with
  | JStr s => Ok s
  | _ => Raise TypeError
  end.

Definition as_int (v : JValue) : Result Z :=
  match v with
  | JInt z => Ok z
  | JBool b => Ok (if b then 1%Z else 0%Z)
  | _ => Raise TypeError
  end.

Section Pipeline.

(** Framework-owned data: weight arrays, one input sample of shape
    (224, 224, 3), the history object [fit] returns, and the state of
    NumPy's global generator. *)
Variables Tensor Image History RNG : Type.

(** ** Layers *)

(** A layer inside a pretrained application. *)
Record BaseLayer := {
  bl_name : string;
  bl_trainable : bool;
  bl_weights : list Tensor
}.

(** A model from [tf.keras.applications]. *)
Record Application := {
  app_input_shape : Shape;
  app_include_top : bool;
  app_weights : string;
  app_trainable : bool;
  app_layers : list BaseLayer
}.

Inductive Layer :=
  | PreprocessInput
  | Base (net : Application) (training : option bool)
  | GlobalAveragePooling2D
  | Dense (units : nat) (activation : Activation) (name : option string)
      (trainable : bool) (kernel_bias : list Tensor)
  | Dropout (rate : Q).

(** A symbolic tensor: the input it comes from and the layers applied to
    it so far, first applied first. *)
Record KTensor := {
  source : Shape;
  applied : list Layer
}.

Record Model := {
  inputs : KTensor;
  outputs : list KTensor;
  compiled : option Compiled
}.

Definition Labels : Type := list (string * list (list Q)).

Record FitCall := {
  fit_model : Model;
  fit_x : list Image;
  fit_y : Labels;
  fit_validation_data : list Image * Labels;
  fit_epochs : Z;
  fit_batch_size : nat;
  fit_callbacks : list Callback;
  fit_verbose : nat
}.

Record TFLiteConverter := {
  conv_model : option Model;
  optimizations : list Optimize;
  supported_types : list DType
}.

(** ** What the framework computes *)

(** The layers of MobileNetV2 without its top, with the ImageNet weights. *)
Variable mobilenet_v2_imagenet : list (string * list Tensor).
(** Initial kernel and bias of a dense layer, by fan-in and units. *)
Variable glorot_uniform : nat -> nat -> list Tensor.
(** Draws from NumPy's generator. *)
Variable rand_image : RNG -> Image * RNG.
Variable rand_float : RNG -> Q * RNG.
Variable rand_bits : RNG -> nat * RNG.
(** The weights training leaves in a layer it is allowed to update. *)
Variable fitted_dense : FitCall -> Layer -> list Tensor.
Variable fitted_base : FitCall -> BaseLayer -> list Tensor.
Variable fit_history : FitCall -> History.
(** Serialised forms. *)
Variable tflite_bytes : TFLiteConverter -> Model -> string.
Variable h5_bytes : Model -> string.
Variable saved_model_pb : Model -> string.

(** ** Building a model *)

(** [MobileNetV2(input_shape=..., include_top=..., weights=...)]: the
    application with the pretrained weights loaded, every layer trainable.
    Fetching the weight file into the framework's cache is not
    represented. *)
Definition MobileNetV2 (input_shape : Shape) (include_top : bool)
    (weights : string) : Application :=
  {| app_input_shape := input_shape;
     app_include_top := include_top;
     app_weights := weights;
     app_trainable := true;
     app_layers :=
       map (fun l => {| bl_name := fst l; bl_trainable := true;
                        bl_weights := snd l |}) mobilenet_v2_imagenet |}.

(** [net.trainable = b]: the flag is set on the model and on every layer
    inside it. *)
Definition set_trainable (b : bool) (net : Application) : Application :=
  {| app_input_shape := app_input_shape net;
     app_include_top := app_include_top net;
     app_weights := app_weights net;
     app_trainable := b;
     app_layers :=
       map (fun l => {| bl_name := bl_name l; bl_trainable := b;
                        bl_weights := bl_weights l |}) (app_layers net) |}.

Definition Input (shape : Shape) : KTensor :=
  {| source := shape; applied := [] |}.

(** Five stride-2 stages with [same] padding: each halves, rounding up. *)
Definition halve_up (n : nat) : nat := (n + 1) / 2.

Definition app_output_shape (net : Application) : option Shape :=
  if app_include_top net then Some [1000]
  else
    match app_input_shape net with
    | [h; w; _] =>
        let down n := halve_up (halve_up (halve_up (halve_up (halve_up n)))) in
        Some [down h; down w; 1280]
    | _ => None
    end.

Definition layer_output_shape (l : Layer) (s : Shape) : option Shape :=
  match l with
  | PreprocessInput => Some s
  | Base net _ =>
      if bool_decide (s = app_input_shape net) then app_output_shape net
      else None
  | GlobalAveragePooling2D =>
      match s with
      | [_; _; c] => Some [c]
      | _ => None
      end
  | Dense units _ _ _ _ =>
      match s with
      | [] => None
      | _ => Some (removelast s ++ [units])
      end
  | Dropout _ => Some s
  end.

Fixpoint shape_through (ls : list Layer) (s : Shape) : option Shape :=
  match ls with
  | [] => Some s
  | l :: ls' =>
      match layer_output_shape l s with
      | Some s' => shape_through ls' s'
      | None => None
      end
  end.

(** The per-sample shape of a symbolic tensor (no batch axis). *)
Definition shape_of (x : KTensor) : option Shape :=
  shape_through (applied x) (source x).

(** [layer(x)]. *)
Definition call (l : Layer) (x : KTensor) : Result KTensor :=
  match shape_of x with
  | Some s =>
      match layer_output_shape l s with
      | Some _ => Ok {| source := source x; applied := applied x ++ [l] |}
      | None => Raise ValueError
      end
  | None => Raise ValueError
  end.

(** [keras.layers.Dense(units, activation=..., name=...)(x)]: the layer
    is built for the last axis of [x] and is trainable. *)
Definition dense (units : nat) (activation : Activation)
    (name : option string) (x : KTensor) : Result KTensor :=
  match shape_of x with
  | Some s =>
      call (Dense units activation name true
              (glorot_uniform (List.last s 0) units)) x
  | None => Raise ValueError
  end.

Definition compile (m : Model) (opt : Optimizer)
    (loss : list (string * string))
    (metrics : list (string * list string)) : Model :=
  {| inputs := inputs m; outputs := outputs m;
     compiled := Some {| optimizer := opt; loss := loss;
                         metrics := metrics |} |}.

(** ** Reading a model *)

Definition output_layer (x : KTensor) : option Layer :=
  List.last (map Some (applied x)) None.

Definition layer_name (l : Layer) : option string :=
  match l with
  | Dense _ _ name _ _ => name
  | _ => None
  end.

Definition output_names (m : Model) : list (option string) :=
  map (fun x => match output_layer x with
                | Some l => layer_name l
                | None => None
                end) (outputs m).

Definition output_shapes (m : Model) : list (option Shape) :=
  map shape_of (outputs m).

(** Units and activation of the dense layer behind each output. *)
Definition output_heads (m : Model) : list (option (nat * Activation)) :=
  map (fun x => match output_layer x with
                | Some (Dense units activation _ _ _) =>
                    Some (units, activation)
                | _ => None
                end) (outputs m).

Definition model_layers (m : Model) : list Layer :=
  concat (map applied (outputs m)).

Definition backbones (m : Model) : list Application :=
  omap (fun l => match l with
                 | Base net _ => Some net
                 | _ => None
                 end) (model_layers m).

(** The weights the optimiser may update in an application: those of a
    trainable layer of a trainable model. *)
Definition trainable_weights (net : Application) : list Tensor :=
  if app_trainable net
  then concat (map bl_weights (filter (fun l => bl_trainable l = true)
                                      (app_layers net)))
  else [].

Definition all_weights (net : Application) : list Tensor :=
  concat (map bl_weights (app_layers net)).

(** ** The trainer object and its environment *)

Inductive Event :=
  | Print (text : string)
  (** an f-string with one [:.2f] field *)
  | PrintFixed2 (before : string) (value : Q) (after : string)
  | Summary (m : Model)
  | Fit (c : FitCall)
  | Predict (m : Model) (x : list Image)
  (** a reading of [time.time()] *)
  | Time (value : Q).

Record World := {
  fs : FileSystem;
  np_random : RNG;
  (** the successive values of [time.time()], and how many were read *)
  wall_clock : nat -> Q;
  clock_reads : nat;
  trace : list Event
}.

Record Trainer := {
  config : JValue;
  model : option Model;
  history : option History
}.

Record State := {
  self : Trainer;
  world : World
}.

(** A method of the trainer. *)
Definition M (A : Type) : Type := SE State A.

(** [self.model] *)
Definition get_model : M (option Model) := fun s => (Ok (model (self s)), s).

(** [self.config[key]] *)
Definition config_item (key : string) : M JValue := fun s =>
  (getitem (config (self s)) key, s).

Definition set_model (m : option Model) : M unit := fun s =>
  (Ok tt, {| self := {| config := config (self s); model := m;
                        history := history (self s) |};
             world := world s |}).

Definition set_history (h : option History) : M unit := fun s =>
  (Ok tt, {| self := {| config := config (self s); model := model (self s);
                        history := h |};
             world := world s |}).

(** [self.model.attr]: fails on [None]. *)
Definition self_model (attr : string) : M Model :=
  m ← get_model; from_option (AttributeError attr) m.

(** Running a step that only touches the environment. *)
Definition in_world {A} (c : SE World A) : M A := fun s =>
  let '(r, w) := c (world s) in (r, {| self := self s; world := w |}).

(** Running a method on a trainer held in a local variable. *)
Definition on_trainer {A} (t : Trainer) (c : M A) : SE World (A * Trainer) :=
  fun w =>
    match c {| self := t; world := w |} with
    | (Ok a, s) => (Ok (a, self s), world s)
    | (Raise e, s) => (Raise e, world s)
    end.

Definition emit (e : Event) : SE World unit := fun w =>
  (Ok tt, {| fs := fs w; np_random := np_random w;
             wall_clock := wall_clock w; clock_reads := clock_reads w;
             trace := trace w ++ [e] |}).

Definition print (text : string) : SE World unit := emit (Print text).

(** [time.time()]. *)
Definition time_time : SE World Q := fun w =>
  let now := wall_clock w (clock_reads w) in
  (Ok now,
   {| fs := fs w; np_random := np_random w;
      wall_clock := wall_clock w; clock_reads := S (clock_reads w);
      trace := trace w ++ [Time now] |}).

Definition with_fs (f : FileSystem -> Result FileSystem) : SE World unit :=
  fun w =>
    match f (fs w) with
    | Ok fs' => (Ok tt, {| fs := fs'; np_random := np_random w;
                           wall_clock := wall_clock w;
                           clock_reads := clock_reads w;
                           trace := trace w |})
    | Raise e => (Raise e, w)
    end.

Definition open_write (path content : string) : SE World unit :=
  with_fs (fun fs => write_file fs path content).

Definition open_read (path : string) : SE World string := fun w =>
  (read_file (fs w) path, w).

Definition os_makedirs (path : string) : SE World unit :=
  with_fs (fun fs => makedirs fs path).

(** One draw from the global generator. *)
Definition draw {A} (gen : RNG -> A * RNG) : SE World A := fun w =>
  let '(a, g) := gen (np_random w) in
  (Ok a, {| fs := fs w; np_random := g; wall_clock := wall_clock w;
            clock_reads := clock_reads w; trace := trace w |}).

(** [n] draws in a row, first drawn first. *)
Definition draws {A} (n : nat) (gen : RNG -> A * RNG) : SE World (list A) :=
  for_range n (fun acc => a ← draw gen; mret (acc ++ [a])) [].

(** [np.random.rand(n, 224, 224, 3).astype(np.float32)], by sample. *)
Definition np_random_rand_images (n : nat) : SE World (list Image) :=
  draws n rand_image.

(** [np.random.rand(n, 1)], by row. *)
Definition np_random_rand_column (n : nat) : SE World (list (list Q)) :=
  draws n (fun g => let '(q, g') := rand_float g in ([q], g')).

(** [np.random.randint(low, high, n)]. *)
Definition np_random_randint (low high n : nat) : SE World (list nat) :=
  draws n (fun g => let '(k, g') := rand_bits g in
                    (low + k mod (high - low), g')).

(** ** [MicroMentorTrainer.__init__] *)

Definition default_config_path : string := "config/training_config.json".

Definition __init__ (config_path : string) : SE World Trainer :=
  text ← open_read config_path;
  cfg ← from_result (Json.loads text);
  mret {| config := cfg; model := None; history := None |}.

(** ** [MicroMentorTrainer.create_model] *)

Definition create_model : M Model :=
  let base_model := MobileNetV2 [224; 224; 3] false "imagenet" in
  let base_model := set_trainable false base_model in
  let inputs := Input [224; 224; 3] in
  x ← from_result (call PreprocessInput inputs);
  x ← from_result (call (Base base_model (Some false)) x);
  x ← from_result (call GlobalAveragePooling2D x);
  x ← from_result (dense 128 relu None x);
  x ← from_result (call (Dropout 0.2) x);
  emotion_output ← from_result (dense 5 softmax (Some "emotion") x);
  fatigue_output ← from_result (dense 1 sigmoid (Some "fatigue") x);
  let m := {| inputs := inputs;
              outputs := [emotion_output; fatigue_output];
              compiled := None |} in
  let m := compile m (Adam 0.001)
             [("emotion", "categorical_crossentropy");
              ("fatigue", "binary_crossentropy")]
             [("emotion", ["accuracy"]); ("fatigue", ["accuracy"])] in
  set_model (Some m);;
  mret m.

(** ** [MicroMentorTrainer.prepare_data] *)

Definition num_samples : nat := 1000.

Definition Dataset : Type := list Image * Labels.

Definition prepare_data : M (Dataset * Dataset) :=
  X ← in_world (np_random_rand_images num_samples);
  emotions ← in_world (np_random_randint 0 5 num_samples);
  y_emotion ← from_result (to_categorical emotions 5);
  y_fatigue ← in_world (np_random_rand_column num_samples);
  split_idx ← from_option ValueError
    (Float64.to_int
       (Float64.mul Float64.f0_8 (Float64.of_int (Z.of_nat num_samples))));
  let X_train := slice_to X split_idx in
  let X_val := slice_from X split_idx in
  let y_emotion_train := slice_to y_emotion split_idx in
  let y_emotion_val := slice_from y_emotion split_idx in
  let y_fatigue_train := slice_to y_fatigue split_idx in
  let y_fatigue_val := slice_from y_fatigue split_idx in
  mret ((X_train, [("emotion", y_emotion_train); ("fatigue", y_fatigue_train)]),
        (X_val, [("emotion", y_emotion_val); ("fatigue", y_fatigue_val)])).

(** ** [Model.fit] *)

(** Training replaces the weights of the layers it may update and leaves
    every other layer as it is: a layer is updated when its [trainable]
    flag is set and, inside an application, when the application's flag
    is set as well. *)
Definition fit_base_layer (c : FitCall) (net_trainable : bool)
    (l : BaseLayer) : BaseLayer :=
  if (net_trainable && bl_trainable l)%bool
  then {| bl_name := bl_name l; bl_trainable := bl_trainable l;
          bl_weights := fitted_base c l |}
  else l.

Definition fit_application (c : FitCall) (net : Application) : Application :=
  {| app_input_shape := app_input_shape net;
     app_include_top := app_include_top net;
     app_weights := app_weights net;
     app_trainable := app_trainable net;
     app_layers := map (fit_base_layer c (app_trainable net))
                       (app_layers net) |}.

Definition fit_layer (c : FitCall) (l : Layer) : Layer :=
  match l with
  | Base net training => Base (fit_application c net) training
  | Dense units activation name is_trainable w =>
      Dense units activation name is_trainable
        (if is_trainable then fitted_dense c l else w)
  | _ => l
  end.

Definition fit_tensor (c : FitCall) (x : KTensor) : KTensor :=
  {| source := source x; applied := map (fit_layer c) (applied x) |}.

(** The model [fit] leaves behind: the same graph, with the weights of the
    trainable layers replaced.  [compiled] stands for the arguments once
    given to [compile], which [fit] does not change; the optimiser's
    running state is not part of it. *)
Definition fitted_model (c : FitCall) : Model :=
  {| inputs := fit_tensor c (inputs (fit_model c));
     outputs := map (fit_tensor c) (outputs (fit_model c));
     compiled := compiled (fit_model c) |}.

(** [self.model.fit(...)]: the model object is updated in place. *)
Definition model_fit (c : FitCall) : M History :=
  match compiled (fit_model c) with
  | None =>
      raise (RuntimeError "You must compile your model before training.")
  | Some _ =>
      in_world (emit (Fit c));;
      set_model (Some (fitted_model c));;
      mret (fit_history c)
  end.

(** ** [MicroMentorTrainer.train] *)

Definition callbacks : list Callback :=
  [EarlyStopping "val_loss" 3 true;
   ReduceLROnPlateau "val_loss" 0.5 2].

Definition train (epochs : Z) : M History :=
  m ← get_model;
  match m with
  | None => create_model;; mret tt
  | Some _ => mret tt
  end;;
  '(train_data, val_data) ← prepare_data;
  m ← self_model "fit";
  h ← model_fit {| fit_model := m;
                   fit_x := fst train_data;
                   fit_y := snd train_data;
                   fit_validation_data := val_data;
                   fit_epochs := epochs;
                   fit_batch_size := 32;
                   fit_callbacks := callbacks;
                   fit_verbose := 1 |};
  set_history (Some h);;
  mret h.

(** [train()] with the default [epochs=10]. *)
Definition train_default : M History := train 10.

(** ** [MicroMentorTrainer.optimize_for_edge] *)

Definition from_keras_model (m : option Model) : TFLiteConverter :=
  {| conv_model := m; optimizations := []; supported_types := [] |}.

Definition set_optimizations (o : list Optimize) (c : TFLiteConverter)
  : TFLiteConverter :=
  {| conv_model := conv_model c; optimizations := o;
     supported_types := supported_types c |}.

Definition set_supported_types (ts : list DType) (c : TFLiteConverter)
  : TFLiteConverter :=
  {| conv_model := conv_model c; optimizations := optimizations c;
     supported_types := ts |}.

Definition convert (c : TFLiteConverter) : Result string :=
  match conv_model c with
  | Some m => Ok (tflite_bytes c m)
  | None => Raise (AttributeError "call")
  end.

Definition optimize_for_edge : M string :=
  m ← get_model;
  let converter := from_keras_model m in
  let converter := set_optimizations [OptimizeDEFAULT] converter in
  let converter := set_supported_types [float16] converter in
  tflite_model ← from_result (convert converter);
  output_path ← config_item "output_path";
  output_path ← from_result (as_str output_path);
  let tflite_path := path_join output_path "micromentor_edge.tflite" in
  in_world (open_write tflite_path tflite_model);;
  let model_size_mb :=
    (inject_Z (Z.of_nat (String.length tflite_model))
     / inject_Z (1024 * 1024))%Q in
  in_world (emit (PrintFixed2 "Optimized model size: " model_size_mb " MB"));;
  mret tflite_path.

(** ** [MicroMentorTrainer.save_model] *)

(** [tf.saved_model.save(m, path)]: the directory is created and the
    serialised graph is written in it.  Of the files of the export only
    [saved_model.pb] is represented. *)
Definition saved_model_save (m : Model) (path : string) : SE World unit :=
  os_makedirs path;;
  open_write (path_join path "saved_model.pb") (saved_model_pb m).

Definition save_model : M unit :=
  output_path ← config_item "output_path";
  output_path ← from_result (as_str output_path);
  let keras_path := path_join output_path "micromentor_model.h5" in
  m ← self_model "save";
  in_world (open_write keras_path (h5_bytes m));;
  output_path ← config_item "output_path";
  output_path ← from_result (as_str output_path);
  let tfjs_path := path_join output_path "tfjs" in
  in_world (saved_model_save m tfjs_path);;
  in_world (print ("Model saved to " +:+ keras_path));;
  in_world (print ("TensorFlow.js model saved to " +:+ tfjs_path)).

(** ** [MicroMentorTrainer.evaluate_latency] *)

(** [self.model.predict(x, verbose=0)], its result dropped. *)
Definition predict (x : list Image) : M unit :=
  m ← self_model "predict";
  in_world (emit (Predict m x)).

Definition evaluate_latency : M Q :=
  test_input ← in_world (np_random_rand_images 1);
  for_range 10 (fun _ => predict test_input) tt;;
  latencies ← for_range 100 (fun latencies =>
    start ← in_world time_time;
    predict test_input;;
    stop ← in_world time_time;
    mret (latencies ++ [((stop - start) * 1000)%Q])) [];
  let avg_latency := np_mean latencies in
  in_world (emit (PrintFixed2 "Average inference latency: " avg_latency " ms"));;
  mret avg_latency.

(** ** [main] *)

(** Lines 181-196: the output directory, the configuration file, the
    trainer. *)
Definition main_setup : SE World Trainer :=
  os_makedirs "models/tfjs";;
  let config := main_config in
  open_write "config/training_config.json" (Json.dumps config);;
  __init__ default_config_path.

(** Lines 198-217, on the trainer just built. *)
Definition main_steps : M unit :=
  let config := main_config in
  in_world (print "Creating MicroMentor model...");;
  create_model;;
  in_world (print "\nModel Summary:");;
  m ← self_model "summary";
  in_world (emit (Summary m));;
  in_world (print "\nTraining model...");;
  epochs ← from_result (getitem config "epochs");
  epochs ← from_result (as_int epochs);
  train epochs;;
  in_world (print "\nOptimizing for edge deployment...");;
  tflite_path ← optimize_for_edge;
  in_world (print "\nSaving models...");;
  save_model;;
  in_world (print "\nEvaluating latency...");;
  evaluate_latency;;
  in_world (print "\n✅ Training complete!");;
  output_path ← from_result (getitem config "output_path");
  output_path ← from_result (as_str output_path);
  in_world (print ("Models saved in " +:+ output_path +:+ " directory")).

Definition main : SE World unit :=
  trainer ← main_setup;
  on_trainer trainer main_steps;;
  mret tt.

(** ** The operations of the trainer, by name *)

Inductive Op :=
  | OpCreateModel
  | OpPrepareData
  | OpTrain (epochs : Z)
  | OpOptimizeForEdge
  | OpSaveModel
  | OpEvaluateLatency.

Inductive Returned :=
  | RModel (m : Model)
  | RData (d : Dataset * Dataset)
  | RHistory (h : History)
  | RPath (p : string)
  | RNone
  | RFloat (q : Q).

Definition run (op : Op) : M Returned :=
  match op with
  | OpCreateModel => m ← create_model; mret (RModel m)
  | OpPrepareData => d ← prepare_data; mret (RData d)
  | OpTrain epochs => h ← train epochs; mret (RHistory h)
  | OpOptimizeForEdge => p ← optimize_for_edge; mret (RPath p)
  | OpSaveModel => save_model;; mret RNone
  | OpEvaluateLatency => q ← evaluate_latency; mret (RFloat q)
  end.

(** Calls made one after the other; the first exception ends the run. *)
Fixpoint run_all (ops : list Op) : M unit :=
  match ops with
  | [] => mret tt
  | op :: rest => run op;; run_all rest
  end.

(* =================================================================== *)
(** * Properties *)
(* =================================================================== *)

(** ** Model assembly *)

(** The state a method leaves when it stores [m] in [self.model]. *)
Definition with_model (m : Model) (s : State) : State :=
  {| self := {| config := config (self s); model := Some m;
                history := history (self s) |};
     world := world s |}.

Lemma bind_ok {S A B} (c : SE S A) (f : A -> SE S B) s a s' :
  c s = (Ok a, s') -> (c ≫= f) s = f a s'.
Proof. intros H. unfold mbind, SE_bind. now rewrite H. Qed.

Lemma bind_raise {S A B} (c : SE S A) (f : A -> SE S B) s e s' :
  c s = (Raise e, s') -> (c ≫= f) s = (Raise e, s').
Proof. intros H. unfold mbind, SE_bind. now rewrite H. Qed.

(** ** Model assembly *)

(** The frozen backbone and the layers shared by both outputs, as
    [create_model] applies them. *)
Definition frozen_backbone : Application :=
  set_trainable false (MobileNetV2 [224; 224; 3] false "imagenet").

Definition shared_layers : list Layer :=
  [PreprocessInput; Base frozen_backbone (Some false);
   GlobalAveragePooling2D;
   Dense 128 relu None true (glorot_uniform 1280 128);
   Dropout 0.2].

Definition assembled_model : Model :=
  {| inputs := Input [224; 224; 3];
     outputs :=
       [ {| source := [224; 224; 3];
            applied := shared_layers
              ++ [Dense 5 softmax (Some "emotion") true
                    (glorot_uniform 128 5)] |};
         {| source := [224; 224; 3];
            applied := shared_layers
              ++ [Dense 1 sigmoid (Some "fatigue") true
                    (glorot_uniform 128 1)] |} ];
     compiled :=
       Some {| optimizer := Adam 0.001;
               loss := [("emotion", "categorical_crossentropy");
                        ("fatigue", "binary_crossentropy")];
               metrics := [("emotion", ["accuracy"]);
                           ("fatigue", ["accuracy"])] |} |}.

Lemma create_model_eq (s : State) :
  create_model s = (Ok assembled_model, with_model assembled_model s).
Proof. reflexivity. Qed.

(** C1: from any state, [create_model] returns and stores a model with
    exactly two outputs, named [emotion] and [fatigue], of per-sample
    shapes (5,) and (1,), the first behind a dense layer of 5 units with
    a softmax, the second behind a dense layer of 1 unit with a sigmoid. *)
Theorem create_model_outputs (s : State) :
  exists m,
    fst (create_model s) = Ok m /\
    model (self (snd (create_model s))) = Some m /\
    length (outputs m) = 2 /\
    output_names m = [Some "emotion"; Some "fatigue"] /\
    output_shapes m = [Some [5]; Some [1]] /\
    output_heads m = [Some (5, softmax); Some (1, sigmoid)].
Proof.
  exists assembled_model. rewrite create_model_eq.
  repeat split; reflexivity.
Qed.

(** ** Loops and draws *)

Definition with_rng (g : RNG) (w : World) : World :=
  {| fs := fs w; np_random := g; wall_clock := wall_clock w;
     clock_reads := clock_reads w; trace := trace w |}.

Definition in_state (t : Trainer) (w : World) : State :=
  {| self := t; world := w |}.

Lemma in_world_eq {A} (c : SE World A) (s : State) r w :
  c (world s) = (r, w) -> in_world c s = (r, in_state (self s) w).
Proof. intros H. unfold in_world. now rewrite H. Qed.

Section Draws.
Context {A : Type} (gen : RNG -> A * RNG) (P : A -> Prop).
Hypothesis gen_P : forall g, P (fst (gen g)).

Lemma draws_from (n : nat) : forall (acc : list A) (w : World),
  exists l g,
    for_range n (fun acc => a ← draw gen; mret (acc ++ [a])) acc w
      = (Ok (acc ++ l), with_rng g w)
    /\ length l = n /\ Forall P l.
Proof.
  induction n as [|n IH]; intros acc w.
  - exists [], (np_random w). rewrite app_nil_r.
    destruct w; repeat split; constructor.
  - cbn [for_range].
    destruct (gen (np_random w)) as [a g] eqn:Hgen.
    destruct (IH (acc ++ [a]) (with_rng g w)) as (l & g' & Hrun & Hlen & HP).
    exists (a :: l), g'.
    split; [|split].
    + erewrite bind_ok.
      2:{ unfold mbind, SE_bind, draw. rewrite Hgen. reflexivity. }
      fold (with_rng g w). rewrite Hrun, <- app_assoc. reflexivity.
    + cbn. now rewrite Hlen.
    + constructor; [|exact HP].
      specialize (gen_P (np_random w)). now rewrite Hgen in gen_P.
Qed.

Lemma draws_returns (n : nat) (w : World) :
  exists l g,
    draws n gen w = (Ok l, with_rng g w) /\ length l = n /\ Forall P l.
Proof. apply (draws_from n [] w). Qed.
End Draws.

Lemma to_categorical_returns (labels : list nat) (num_classes : nat) :
  Forall (fun c => c < num_classes) labels ->
  exists rows,
    to_categorical labels num_classes = Ok rows
    /\ length rows = length labels.
Proof.
  induction 1 as [|c rest Hc _ IH].
  - now exists [].
  - destruct IH as (rows & Hrows & Hlen).
    exists (one_hot num_classes c :: rows). cbn [to_categorical].
    apply Nat.ltb_lt in Hc. rewrite Hc, Hrows. cbn. now rewrite Hlen.
Qed.

Lemma randint_below (g : RNG) :
  fst (let '(k, g') := rand_bits g in (0 + k mod (5 - 0), g')) < 5.
Proof.
  destruct (rand_bits g) as [k g']. cbn [fst].
  change (k mod 5 < 5). apply Nat.mod_upper_bound. lia.
Qed.

Lemma split_idx_is_800 :
  Float64.to_int
    (Float64.mul Float64.f0_8 (Float64.of_int (Z.of_nat num_samples)))
  = Some 800%Z.
Proof. vm_compute. reflexivity. Qed.

Lemma slice_to_800 {A} (a : list A) :
  length a = 1000 -> slice_to a 800 = take 800 a.
Proof. intros H. unfold slice_to, slice_bound. now rewrite H. Qed.

Lemma slice_from_800 {A} (a : list A) :
  length a = 1000 -> slice_from a 800 = drop 800 a.
Proof. intros H. unfold slice_from, slice_bound. now rewrite H. Qed.

(** What [prepare_data] returns, in terms of the three arrays it drew. *)
Lemma prepare_data_returns (s : State) :
  exists X y_emotion y_fatigue g,
    length X = num_samples /\ length y_emotion = num_samples
    /\ length y_fatigue = num_samples
    /\ prepare_data s =
         (Ok ((take 800 X, [("emotion", take 800 y_emotion);
                            ("fatigue", take 800 y_fatigue)]),
              (drop 800 X, [("emotion", drop 800 y_emotion);
                            ("fatigue", drop 800 y_fatigue)])),
          in_state (self s) (with_rng g (world s))).
Proof.
  unfold prepare_data.
  destruct (draws_returns rand_image (fun _ => True) (fun _ => I)
              num_samples (world s)) as (X & g1 & HX & HlenX & _).
  destruct (draws_returns
              (fun g => let '(k, g') := rand_bits g in (0 + k mod (5 - 0), g'))
              (fun c => c < 5)
              randint_below
              num_samples (with_rng g1 (world s)))
    as (emotions & g2 & Hemo & HlenE & Hlt).
  destruct (to_categorical_returns emotions 5 Hlt) as (ye & Hye & HlenY).
  destruct (draws_returns
              (fun g => let '(q, g') := rand_float g in ([q], g'))
              (fun _ => True) (fun _ => I)
              num_samples (with_rng g2 (with_rng g1 (world s))))
    as (yf & g3 & Hyf & HlenF & _).
  exists X, ye, yf, g3.
  split; [exact HlenX|]. split; [lia|]. split; [exact HlenF|].
  erewrite bind_ok by (apply in_world_eq; exact HX).
  erewrite bind_ok by (apply in_world_eq; exact Hemo).
  erewrite bind_ok by (unfold from_result; rewrite Hye; reflexivity).
  erewrite bind_ok by (apply in_world_eq; exact Hyf).
  rewrite split_idx_is_800. cbn [from_option].
  erewrite bind_ok by reflexivity.
  unfold num_samples in *.
  rewrite !slice_to_800, !slice_from_800 by lia.
  reflexivity.
Qed.


(** ** Training *)

Definition with_event (e : Event) (w : World) : World :=
  {| fs := fs w; np_random := np_random w; wall_clock := wall_clock w;
     clock_reads := clock_reads w; trace := trace w ++ [e] |}.

(** The model [train] works on: the stored one, or the one it assembles
    when none is stored. *)
Definition model_in_effect (s : State) : Model :=
  match model (self s) with
  | Some m => m
  | None => assembled_model
  end.

(** The arguments [train] passes to [fit]. *)
Definition train_fit_call (m : Model) (d : Dataset * Dataset) (epochs : Z)
  : FitCall :=
  {| fit_model := m;
     fit_x := fst (fst d);
     fit_y := snd (fst d);
     fit_validation_data := snd d;
     fit_epochs := epochs;
     fit_batch_size := 32;
     fit_callbacks := callbacks;
     fit_verbose := 1 |}.

(** One run of [train], step by step: the data is drawn, then either the
    model is not compiled and [fit] raises, or [fit] is called once and
    the fitted model and the history are stored. *)
Lemma train_runs (epochs : Z) (s : State) :
  exists (d : Dataset * Dataset) (g : RNG),
    let m := model_in_effect s in
    let c := train_fit_call m d epochs in
    let w := with_rng g (world s) in
    fst (prepare_data (with_model m s)) = Ok d /\
    train epochs s =
      match compiled m with
      | Some _ =>
          (Ok (fit_history c),
           {| self := {| config := config (self s);
                         model := Some (fitted_model c);
                         history := Some (fit_history c) |};
              world := with_event (Fit c) w |})
      | None =>
          (Raise (RuntimeError "You must compile your model before training."),
           in_state (self (with_model m s)) w)
      end.
Proof.
  destruct (prepare_data_returns (with_model (model_in_effect s) s))
    as (X & ye & yf & g & _ & _ & _ & Hrun).
  eexists. exists g. cbv zeta. split; [rewrite Hrun; reflexivity|].
  unfold train.
  rewrite (bind_ok get_model _ s (model (self s)) s) by reflexivity.
  erewrite bind_ok with (s' := with_model (model_in_effect s) s) (a := tt).
  2:{ unfold model_in_effect.
      destruct s as [[cfg [m|] h] w]; reflexivity. }
  cbv beta. unfold mbind at 1, SE_bind at 1. rewrite Hrun.
  cbv beta iota.
  erewrite (bind_ok (S := State)) with (a := model_in_effect s)
    by reflexivity.
  unfold model_fit. cbn [fit_model train_fit_call].
  destruct (compiled (model_in_effect s)); reflexivity.
Qed.

Lemma model_in_effect_none (s : State) :
  model (self s) = None -> model_in_effect s = assembled_model.
Proof. unfold model_in_effect. now intros ->. Qed.

Lemma model_in_effect_some (s : State) (m : Model) :
  model (self s) = Some m -> model_in_effect s = m.
Proof. unfold model_in_effect. now intros ->. Qed.

(** C10: when no model is stored, [train] does not fail on the missing
    model: it builds the model [create_model] builds, fits it, and
    returns; afterwards [self.model] is that model, fitted and still
    compiled, and [self.history] is the history [fit] returned. *)
Theorem train_without_model (epochs : Z) (s : State) :
  model (self s) = None ->
  exists h m c cfg,
    fst (train epochs s) = Ok h /\
    fst (create_model s) = Ok (fit_model c) /\
    model (self (snd (train epochs s))) = Some m /\
    m = fitted_model c /\
    compiled m = Some cfg /\
    history (self (snd (train epochs s))) = Some h /\
    h = fit_history c.
Proof.
  intros Hnone.
  destruct (train_runs epochs s) as (d & g & _ & Hrun). cbv zeta in Hrun.
  rewrite (model_in_effect_none s Hnone) in Hrun. cbn [compiled assembled_model] in Hrun.
  rewrite Hrun. cbn [fst snd self model history].
  eexists _, _, (train_fit_call assembled_model d epochs), _.
  repeat split; reflexivity.
Qed.

(** C4: [train] hands [fit] exactly two callbacks: early stopping on
    [val_loss] with a patience window and best-weights restoration, and a
    learning-rate reduction on [val_loss] by a factor of one half with a
    strictly shorter patience window.  From every state [train] does call
    [fit], exactly once and with exactly these callbacks, and returns the
    history of that call; the one exception is a stored model that was
    never compiled, on which [train] raises without a call to [fit]. *)
Theorem train_callbacks (epochs : Z) (s : State) :
  length callbacks = 2 /\
  (exists stop_patience factor lr_patience,
     callbacks = [EarlyStopping "val_loss" stop_patience true;
                  ReduceLROnPlateau "val_loss" factor lr_patience]
     /\ (factor == 1 # 2)%Q
     /\ lr_patience < stop_patience) /\
  ((exists c,
      fst (train epochs s) = Ok (fit_history c)
      /\ trace (world (snd (train epochs s))) = trace (world s) ++ [Fit c]
      /\ fit_callbacks c = callbacks
      /\ length (fit_callbacks c) = 2)
   \/ (exists m,
         model (self s) = Some m
         /\ compiled m = None
         /\ is_ok (fst (train epochs s)) = false
         /\ trace (world (snd (train epochs s))) = trace (world s))).
Proof.
  split; [reflexivity|]. split.
  - exists 3, 0.5%Q, 2.
    split; [reflexivity|]. split; [reflexivity | lia].
  - destruct (train_runs epochs s) as (d & g & _ & Hrun). cbv zeta in Hrun.
    destruct (model (self s)) as [m|] eqn:Hm.
    + rewrite (model_in_effect_some s m Hm) in Hrun.
      destruct (compiled m) as [cfg|] eqn:Hcfg.
      * left. rewrite Hrun. cbn [fst snd world trace with_event].
        eexists. repeat split; reflexivity.
      * right. exists m. rewrite Hrun. cbn [fst snd world trace in_state
          with_rng is_ok]. repeat split; try reflexivity; exact Hcfg.
    + rewrite (model_in_effect_none s Hm) in Hrun.
      cbn [compiled assembled_model] in Hrun.
      left. rewrite Hrun. cbn [fst snd world trace with_event].
      eexists. repeat split; reflexivity.
Qed.

(** ** Frozen backbone *)

Definition frozen (net : Application) : Prop :=
  app_trainable net = false
  /\ Forall (fun l => bl_trainable l = false) (app_layers net).

Lemma fit_application_frozen (c : FitCall) (net : Application) :
  app_trainable net = false -> fit_application c net = net.
Proof.
  destruct net as [shape top weights flag layers]. cbn. intros ->.
  unfold fit_application, fit_base_layer. cbn.
  now rewrite List.map_id.
Qed.

Lemma backbones_fit_layers (c : FitCall) (ls : list Layer) :
  Forall (fun l => match l with
                   | Base net _ => app_trainable net = false
                   | _ => True
                   end) ls ->
  omap (fun l => match l with Base net _ => Some net | _ => None end)
       (map (fit_layer c) ls)
  = omap (fun l => match l with Base net _ => Some net | _ => None end) ls.
Proof.
  induction 1 as [|l ls Hl _ IH]; [reflexivity|].
  cbn [map omap list_omap]. rewrite IH.
  destruct l; cbn [fit_layer]; try reflexivity.
  now rewrite fit_application_frozen.
Qed.

Lemma model_layers_fitted (c : FitCall) :
  model_layers (fitted_model c)
  = map (fit_layer c) (model_layers (fit_model c)).
Proof.
  unfold model_layers, fitted_model. cbn [outputs].
  induction (outputs (fit_model c)) as [|x xs IH]; [reflexivity|].
  cbn [map concat]. rewrite IH, map_app. reflexivity.
Qed.

(** Fitting leaves every frozen application as it was. *)
Lemma backbones_fitted (c : FitCall) :
  Forall frozen (backbones (fit_model c)) ->
  backbones (fitted_model c) = backbones (fit_model c).
Proof.
  intros H. unfold backbones in *. rewrite model_layers_fitted.
  apply backbones_fit_layers.
  induction (model_layers (fit_model c)) as [|l ls IH]; [constructor|].
  destruct l; cbn [omap list_omap] in H;
    try (constructor; [exact I | apply IH; exact H]).
  inversion H as [|? ? [Hnet _] Hrest]; subst.
  constructor; [exact Hnet | apply IH; exact Hrest].
Qed.

(** [train] never changes a frozen application of the stored model,
    whether [fit] runs or raises. *)
Lemma train_keeps_frozen (epochs : Z) (s : State) (m : Model) :
  model (self s) = Some m ->
  Forall frozen (backbones m) ->
  exists m',
    model (self (snd (train epochs s))) = Some m'
    /\ backbones m' = backbones m.
Proof.
  intros Hm Hfrozen.
  destruct (train_runs epochs s) as (d & g & _ & Hrun). cbv zeta in Hrun.
  rewrite (model_in_effect_some s m Hm) in Hrun. rewrite Hrun.
  destruct (compiled m); cbn [fst snd self model with_model in_state].
  - eexists. split; [reflexivity|]. now apply backbones_fitted.
  - now exists m.
Qed.

Lemma frozen_backbone_frozen : frozen frozen_backbone.
Proof.
  split; [reflexivity|].
  unfold frozen_backbone, set_trainable. cbn [app_layers].
  apply List.Forall_forall. intros l Hl. apply in_map_iff in Hl.
  now destruct Hl as (l0 & <- & _).
Qed.

Lemma trainable_weights_frozen (net : Application) :
  app_trainable net = false -> trainable_weights net = [].
Proof. unfold trainable_weights. now intros ->. Qed.

Lemma all_weights_frozen_backbone :
  all_weights frozen_backbone = concat (map snd mobilenet_v2_imagenet).
Proof.
  unfold all_weights, frozen_backbone, set_trainable, MobileNetV2.
  cbn [app_layers]. rewrite !map_map. reflexivity.
Qed.

(** C3: after [create_model] the stored model holds the pretrained
    backbone with its own flag and the flag of every one of its layers
    cleared, so none of its weights is trainable; and a call of [train]
    on that state returns and leaves the backbone, weights included,
    exactly as [create_model] built it. *)
Theorem create_model_freezes_backbone (epochs : Z) (s : State) :
  let s1 := snd (create_model s) in
  let s2 := snd (train epochs s1) in
  exists m1 m2,
    model (self s1) = Some m1 /\
    backbones m1 <> [] /\
    Forall (fun net =>
              net = frozen_backbone
              /\ app_trainable net = false
              /\ Forall (fun l => bl_trainable l = false) (app_layers net)
              /\ trainable_weights net = []
              /\ all_weights net = concat (map snd mobilenet_v2_imagenet))
           (backbones m1) /\
    is_ok (fst (train epochs s1)) = true /\
    model (self s2) = Some m2 /\
    backbones m2 = backbones m1 /\
    map all_weights (backbones m2) = map all_weights (backbones m1).
Proof.
  cbv zeta. rewrite create_model_eq. cbn [snd].
  assert (Hbb : backbones assembled_model = [frozen_backbone; frozen_backbone])
    by reflexivity.
  assert (Hfr : Forall frozen (backbones assembled_model)).
  { rewrite Hbb. repeat constructor; apply frozen_backbone_frozen. }
  destruct (train_keeps_frozen epochs (with_model assembled_model s)
              assembled_model eq_refl Hfr) as (m2 & Hm2 & Hsame).
  exists assembled_model, m2.
  split; [reflexivity|]. split; [now rewrite Hbb|]. split.
  { rewrite Hbb.
    pose proof frozen_backbone_frozen as [Hflag Hlayers].
    repeat constructor; auto using trainable_weights_frozen,
      all_weights_frozen_backbone. }
  split.
  { destruct (train_runs epochs (with_model assembled_model s))
      as (d & g & _ & Hrun). cbv zeta in Hrun.
    rewrite Hrun. reflexivity. }
  split; [exact Hm2|]. split; [exact Hsame | now rewrite Hsame].
Qed.

(** ** Latency benchmark *)

(** The world after [reads] clock readings in total and the events [es]. *)
Definition advance (reads : nat) (es : list Event) (w : World) : World :=
  {| fs := fs w; np_random := np_random w; wall_clock := wall_clock w;
     clock_reads := reads; trace := trace w ++ es |}.

(** The durations, in milliseconds, of [n] measurements in a row when the
    first one takes clock readings number [k] and [k + 1]. *)
Fixpoint durations (clock : nat -> Q) (k n : nat) : list Q :=
  match n with
  | O => []
  | S n' =>
      ((clock (S k) - clock k) * 1000)%Q :: durations clock (S (S k)) n'
  end.

(** What these measurements leave in the trace: each inference between
    its two clock readings. *)
Fixpoint measurement_trace (clock : nat -> Q) (m : Model) (x : list Image)
    (k n : nat) : list Event :=
  match n with
  | O => []
  | S n' =>
      [Time (clock k); Predict m x; Time (clock (S k))]
      ++ measurement_trace clock m x (S (S k)) n'
  end.

Lemma durations_length clock k n : length (durations clock k n) = n.
Proof.
  revert k. induction n as [|n IH]; intros k; [reflexivity|].
  cbn. now rewrite IH.
Qed.

Lemma advance_advance k1 k2 es1 es2 w :
  advance k2 es2 (advance k1 es1 w) = advance k2 (es1 ++ es2) w.
Proof. unfold advance. cbn. now rewrite app_assoc. Qed.

Lemma advance_nothing w : advance (clock_reads w) [] w = w.
Proof. destruct w. unfold advance. cbn. now rewrite app_nil_r. Qed.

Section Benchmark.
Variables (cfg : JValue) (m : Model) (h : option History).
Variable x : list Image.

Let t : Trainer := {| config := cfg; model := Some m; history := h |}.

Lemma warm_up (n : nat) : forall w,
  for_range n (fun _ => predict x) tt (in_state t w)
  = (Ok tt, in_state t (advance (clock_reads w) (repeat (Predict m x) n) w)).
Proof.
  induction n as [|n IH]; intros w.
  - cbn [for_range repeat]. now rewrite advance_nothing.
  - cbn [for_range repeat].
    erewrite (bind_ok (S := State))
      with (s' := in_state t (advance (clock_reads w) [Predict m x] w))
      by reflexivity.
    rewrite IH. cbn [clock_reads advance].
    fold (advance (clock_reads w) [Predict m x] w).
    now rewrite advance_advance.
Qed.

Definition measure_once (latencies : list Q) : M (list Q) :=
  start ← in_world time_time;
  predict x;;
  stop ← in_world time_time;
  mret (latencies ++ [((stop - start) * 1000)%Q]).

Lemma measurements (n : nat) : forall acc w,
  for_range n measure_once acc (in_state t w)
  = (Ok (acc ++ durations (wall_clock w) (clock_reads w) n),
     in_state t
       (advance (clock_reads w + 2 * n)
          (measurement_trace (wall_clock w) m x (clock_reads w) n) w)).
Proof.
  induction n as [|n IH]; intros acc w.
  - cbn [for_range durations measurement_trace].
    rewrite app_nil_r, Nat.mul_0_r, Nat.add_0_r.
    now rewrite advance_nothing.
  - cbn [for_range durations measurement_trace].
    set (k := clock_reads w). set (clock := wall_clock w).
    erewrite (bind_ok (S := State))
      with (a := acc ++ [((clock (S k) - clock k) * 1000)%Q])
           (s' := in_state t
                    (advance (S (S k))
                       [Time (clock k); Predict m x; Time (clock (S k))] w)).
    2:{ subst k clock. destruct w.
        cbv [measure_once mbind SE_bind mret SE_ret in_world in_state
             time_time predict self_model get_model from_option emit
             advance t self world model fs np_random wall_clock
             clock_reads trace].
        rewrite <- !app_assoc. reflexivity. }
    rewrite IH. cbn [clock_reads wall_clock advance].
    fold clock.
    fold (advance (S (S k))
            [Time (clock k); Predict m x; Time (clock (S k))] w).
    rewrite advance_advance, <- app_assoc.
    replace (S (S k) + 2 * n) with (k + 2 * S n) by lia.
    reflexivity.
Qed.
End Benchmark.

Lemma evaluate_latency_runs (cfg : JValue) (m : Model) (h : option History)
    (w : World) :
  let t := {| config := cfg; model := Some m; history := h |} in
  let k := clock_reads w in
  let clock := wall_clock w in
  let test_input := [fst (rand_image (np_random w))] in
  let avg := np_mean (durations clock k 100) in
  evaluate_latency (in_state t w)
  = (Ok avg,
     in_state t
       (advance (k + 200)
          (repeat (Predict m test_input) 10
           ++ measurement_trace clock m test_input k 100
           ++ [PrintFixed2 "Average inference latency: " avg " ms"])
          (with_rng (snd (rand_image (np_random w))) w))).
Proof.
  cbv zeta. unfold evaluate_latency.
  erewrite (bind_ok (S := State))
    with (a := [fst (rand_image (np_random w))])
         (s' := in_state {| config := cfg; model := Some m; history := h |}
                  (with_rng (snd (rand_image (np_random w))) w)).
  2:{ cbv [in_world np_random_rand_images draws for_range draw mbind
           SE_bind mret SE_ret in_state world self with_rng].
      destruct (rand_image (np_random w)) as [img g]. reflexivity. }
  erewrite (bind_ok (S := State)) by apply warm_up. cbv beta.
  erewrite (bind_ok (S := State))
    by apply (measurements cfg m h [fst (rand_image (np_random w))] 100).
  cbn [app clock_reads wall_clock advance with_rng].
  cbv [mbind SE_bind mret SE_ret in_world in_state emit world self
       advance with_rng fs np_random wall_clock clock_reads trace].
  rewrite <- !app_assoc. reflexivity.
Qed.

Lemma durations_nonneg (clock : nat -> Q) (n : nat) : forall k,
  (forall i, i < n -> Qle (clock (k + 2 * i)) (clock (k + 2 * i + 1))) ->
  Forall (fun d => (0 <= d)%Q) (durations clock k n).
Proof.
  induction n as [|n IH]; intros k Hmono; [constructor|].
  cbn [durations]. constructor.
  - specialize (Hmono 0 ltac:(lia)).
    replace (k + 2 * 0) with k in Hmono by lia.
    replace (k + 1) with (S k) in Hmono by lia.
    apply Qmult_le_0_compat; [|discriminate].
    now apply -> Qle_minus_iff.
  - apply IH. intros i Hi. specialize (Hmono (S i) ltac:(lia)).
    replace (k + 2 * S i) with (S (S k) + 2 * i) in Hmono by lia.
    exact Hmono.
Qed.

Lemma np_mean_nonneg (xs : list Q) :
  Forall (fun d => (0 <= d)%Q) xs -> (0 <= np_mean xs)%Q.
Proof.
  intros H. unfold np_mean, Qdiv.
  apply Qmult_le_0_compat.
  - induction H as [|d ds Hd _ IH]; cbn [fold_right]; [discriminate|].
    replace 0%Q with (0 + 0)%Q by reflexivity.
    now apply Qplus_le_compat.
  - apply Qinv_le_0_compat.
    change 0%Q with (inject_Z 0). rewrite <- Zle_Qle. lia.
Qed.

(** C5 (as amended): with a model stored, [evaluate_latency] draws one
    sample, runs 10 inferences without reading the clock, then 100
    inferences each between two clock readings, and returns the mean of
    exactly these 100 measured durations in milliseconds; nothing else is
    inferred or measured.  The mean is non-negative whenever, in each
    measurement, the reading taken after the inference is not below the
    reading taken before it. *)
Theorem evaluate_latency_mean (s : State) (m : Model) :
  model (self s) = Some m ->
  let k := clock_reads (world s) in
  let clock := wall_clock (world s) in
  let test_input := [fst (rand_image (np_random (world s)))] in
  let measured := durations clock k 100 in
  fst (evaluate_latency s) = Ok (np_mean measured) /\
  length test_input = 1 /\
  length measured = 100 /\
  trace (world (snd (evaluate_latency s)))
  = trace (world s)
    ++ repeat (Predict m test_input) 10
    ++ measurement_trace clock m test_input k 100
    ++ [PrintFixed2 "Average inference latency: " (np_mean measured) " ms"]
  /\ clock_reads (world (snd (evaluate_latency s))) = k + 2 * 100
  /\ ((forall i, i < 100 -> Qle (clock (k + 2 * i)) (clock (k + 2 * i + 1))) ->
      (0 <= np_mean measured)%Q).
Proof.
  destruct s as [[cfg mo h] w]. cbn [self world model]. intros ->.
  cbv zeta.
  pose proof (evaluate_latency_runs cfg m h w) as Hrun. cbv zeta in Hrun.
  unfold in_state in Hrun. rewrite Hrun. cbn [fst snd world trace advance
    clock_reads with_rng].
  split; [reflexivity|]. split; [reflexivity|].
  split; [apply durations_length|]. split; [reflexivity|].
  split; [reflexivity|].
  intros Hmono. apply np_mean_nonneg, durations_nonneg, Hmono.
Qed.

(** ** The configuration is never written *)

Definition keeps_config {A} (c : M A) : Prop :=
  forall s, config (self (snd (c s))) = config (self s).

Lemma keeps_config_ret {A} (a : A) : keeps_config (mret a).
Proof. intros s. reflexivity. Qed.

Lemma keeps_config_bind {A B} (c : M A) (f : A -> M B) :
  keeps_config c -> (forall a, keeps_config (f a)) -> keeps_config (c ≫= f).
Proof.
  intros Hc Hf s. unfold mbind, SE_bind.
  specialize (Hc s). destruct (c s) as [[a|e] s']; cbn [snd] in *.
  - now rewrite Hf.
  - exact Hc.
Qed.

Lemma keeps_config_in_world {A} (c : SE World A) : keeps_config (in_world c).
Proof. intros s. unfold in_world. now destruct (c (world s)). Qed.

Lemma keeps_config_from_result {A} (r : Result A) :
  keeps_config (from_result r).
Proof. intros s. reflexivity. Qed.

Lemma keeps_config_from_option {A} e (o : option A) :
  keeps_config (from_option e o).
Proof. intros s. now destruct o. Qed.

Lemma keeps_config_raise {A} e : keeps_config (raise (A := A) e).
Proof. intros s. reflexivity. Qed.

Lemma keeps_config_get_model : keeps_config get_model.
Proof. intros s. reflexivity. Qed.

Lemma keeps_config_config_item key : keeps_config (config_item key).
Proof. intros s. reflexivity. Qed.

Lemma keeps_config_set_model m : keeps_config (set_model m).
Proof. intros s. reflexivity. Qed.

Lemma keeps_config_set_history h : keeps_config (set_history h).
Proof. intros s. reflexivity. Qed.

Lemma keeps_config_for_range {A} n (body : A -> M A) :
  (forall acc, keeps_config (body acc)) ->
  forall acc, keeps_config (for_range n body acc).
Proof.
  intros Hbody. induction n as [|n IH]; intros acc; cbn [for_range].
  - apply keeps_config_ret.
  - apply keeps_config_bind; [apply Hbody | exact IH].
Qed.

Ltac keeps_config_step :=
  lazymatch goal with
  | |- keeps_config (mbind _ _) => apply keeps_config_bind; [|intros ?]
  | |- keeps_config (mret _) => apply keeps_config_ret
  | |- keeps_config (in_world _) => apply keeps_config_in_world
  | |- keeps_config (from_result _) => apply keeps_config_from_result
  | |- keeps_config (from_option _ _) => apply keeps_config_from_option
  | |- keeps_config (raise _) => apply keeps_config_raise
  | |- keeps_config get_model => apply keeps_config_get_model
  | |- keeps_config (config_item _) => apply keeps_config_config_item
  | |- keeps_config (set_model _) => apply keeps_config_set_model
  | |- keeps_config (set_history _) => apply keeps_config_set_history
  | |- keeps_config (for_range _ _ _) =>
      apply keeps_config_for_range; intros ?
  | |- keeps_config (match ?x with _ => _ end) => destruct x
  end.

Ltac keeps_config_auto := cbv zeta; repeat keeps_config_step.

Lemma keeps_config_create_model : keeps_config create_model.
Proof. unfold create_model. keeps_config_auto. Qed.

Lemma keeps_config_prepare_data : keeps_config prepare_data.
Proof. unfold prepare_data. keeps_config_auto. Qed.

Lemma keeps_config_train epochs : keeps_config (train epochs).
Proof.
  unfold train, self_model, model_fit. keeps_config_auto;
    auto using keeps_config_create_model, keeps_config_prepare_data.
Qed.

Lemma keeps_config_optimize_for_edge : keeps_config optimize_for_edge.
Proof. unfold optimize_for_edge. keeps_config_auto. Qed.

Lemma keeps_config_save_model : keeps_config save_model.
Proof. unfold save_model, self_model. keeps_config_auto. Qed.

Lemma keeps_config_evaluate_latency : keeps_config evaluate_latency.
Proof. unfold evaluate_latency, predict, self_model. keeps_config_auto. Qed.

Lemma keeps_config_run op : keeps_config (run op).
Proof.
  destruct op; cbn [run]; keeps_config_auto;
    auto using keeps_config_create_model, keeps_config_prepare_data,
      keeps_config_train, keeps_config_optimize_for_edge,
      keeps_config_save_model, keeps_config_evaluate_latency.
Qed.

Lemma keeps_config_run_all ops : keeps_config (run_all ops).
Proof.
  induction ops as [|op ops IH]; cbn [run_all].
  - apply keeps_config_ret.
  - apply keeps_config_bind; [apply keeps_config_run | intros _; exact IH].
Qed.

(** C8: the constructor stores what [json.load] returned for the file,
    with no model and no history, and changes nothing else; after that no
    operation of the trainer, alone or in any sequence, returning or
    raising, changes [self.config]. *)
Theorem config_loaded_once_never_modified (s : State) :
  (forall path w,
     match __init__ path w with
     | (Ok t, w') =>
         w' = w /\ model t = None /\ history t = None
         /\ exists text, read_file (fs w) path = Ok text
                         /\ Json.loads text = Ok (config t)
     | (Raise _, w') => w' = w
     end) /\
  (forall op, config (self (snd (run op s))) = config (self s)) /\
  (forall ops, config (self (snd (run_all ops s))) = config (self s)).
Proof.
  split; [|split].
  - intros path w.
    cbv [__init__ mbind SE_bind open_read from_result mret SE_ret].
    destruct (read_file (fs w) path) as [text|e] eqn:Hread; [|reflexivity].
    destruct (Json.loads text) as [cfg|e] eqn:Hload; [|reflexivity].
    cbn [config model history]. eauto 6.
  - intros op. apply keeps_config_run.
  - intros ops. apply keeps_config_run_all.
Qed.

(** ** Only [output_path] is read *)

(** Two states that differ at most in their configurations, which give
    the same answer for [config['output_path']]. *)
Definition agree_on_output_path (s1 s2 : State) : Prop :=
  getitem (config (self s1)) "output_path"
    = getitem (config (self s2)) "output_path"
  /\ model (self s1) = model (self s2)
  /\ history (self s1) = history (self s2)
  /\ world s1 = world s2.

(** A method that cannot tell such states apart: same outcome, and the
    states it leaves still differ at most in that way. *)
Definition blind {A} (c : M A) : Prop :=
  forall s1 s2,
    agree_on_output_path s1 s2 ->
    fst (c s1) = fst (c s2)
    /\ agree_on_output_path (snd (c s1)) (snd (c s2)).

Lemma blind_ret {A} (a : A) : blind (mret a).
Proof. intros s1 s2 H. now split. Qed.

Lemma blind_bind {A B} (c : M A) (f : A -> M B) :
  blind c -> (forall a, blind (f a)) -> blind (c ≫= f).
Proof.
  intros Hc Hf s1 s2 H. unfold mbind, SE_bind.
  destruct (Hc s1 s2 H) as [Hres Hpost].
  destruct (c s1) as [r1 s1'], (c s2) as [r2 s2']. cbn [fst snd] in *.
  subst r2. destruct r1 as [a|e].
  - now apply Hf.
  - now split.
Qed.

Lemma blind_in_world {A} (c : SE World A) : blind (in_world c).
Proof.
  intros s1 s2 (Hcfg & Hm & Hh & Hw). unfold in_world. rewrite Hw.
  destruct (c (world s2)) as [r w]. now repeat split.
Qed.

Lemma blind_from_result {A} (r : Result A) : blind (from_result r).
Proof. intros s1 s2 H. now split. Qed.

Lemma blind_from_option {A} e (o : option A) : blind (from_option e o).
Proof. intros s1 s2 H. destruct o; now split. Qed.

Lemma blind_raise {A} e : blind (raise (A := A) e).
Proof. intros s1 s2 H. now split. Qed.

Lemma blind_get_model : blind get_model.
Proof.
  intros s1 s2 H. split; [|exact H].
  destruct H as (_ & Hm & _). cbn. now rewrite Hm.
Qed.

Lemma blind_output_path : blind (config_item "output_path").
Proof.
  intros s1 s2 H. split; [|exact H].
  destruct H as (Hcfg & _). exact Hcfg.
Qed.

Lemma blind_set_model m : blind (set_model m).
Proof.
  intros s1 s2 (Hcfg & Hm & Hh & Hw). now repeat split.
Qed.

Lemma blind_set_history h : blind (set_history h).
Proof.
  intros s1 s2 (Hcfg & Hm & Hh & Hw). now repeat split.
Qed.

Lemma blind_for_range {A} n (body : A -> M A) :
  (forall acc, blind (body acc)) -> forall acc, blind (for_range n body acc).
Proof.
  intros Hbody. induction n as [|n IH]; intros acc; cbn [for_range].
  - apply blind_ret.
  - apply blind_bind; [apply Hbody | exact IH].
Qed.

Ltac blind_step :=
  lazymatch goal with
  | |- blind (mbind _ _) => apply blind_bind; [|intros ?]
  | |- blind (mret _) => apply blind_ret
  | |- blind (in_world _) => apply blind_in_world
  | |- blind (from_result _) => apply blind_from_result
  | |- blind (from_option _ _) => apply blind_from_option
  | |- blind (raise _) => apply blind_raise
  | |- blind get_model => apply blind_get_model
  | |- blind (config_item "output_path") => apply blind_output_path
  | |- blind (set_model _) => apply blind_set_model
  | |- blind (set_history _) => apply blind_set_history
  | |- blind (for_range _ _ _) => apply blind_for_range; intros ?
  | |- blind (match ?x with _ => _ end) => destruct x
  end.

Ltac blind_auto := cbv zeta; repeat blind_step.

Lemma blind_create_model : blind create_model.
Proof. unfold create_model. blind_auto. Qed.

Lemma blind_prepare_data : blind prepare_data.
Proof. unfold prepare_data. blind_auto. Qed.

Lemma blind_train epochs : blind (train epochs).
Proof.
  unfold train, self_model, model_fit. blind_auto;
    auto using blind_create_model, blind_prepare_data.
Qed.

Lemma blind_optimize_for_edge : blind optimize_for_edge.
Proof. unfold optimize_for_edge. blind_auto. Qed.

Lemma blind_save_model : blind save_model.
Proof. unfold save_model, self_model. blind_auto. Qed.

Lemma blind_evaluate_latency : blind evaluate_latency.
Proof. unfold evaluate_latency, predict, self_model. blind_auto. Qed.

Lemma blind_run op : blind (run op).
Proof.
  destruct op; cbn [run]; blind_auto;
    auto using blind_create_model, blind_prepare_data, blind_train,
      blind_optimize_for_edge, blind_save_model, blind_evaluate_latency.
Qed.

(** What [train] asks of [fit]: the epochs it was called with and a batch
    size of 32. *)
Lemma train_fit_arguments (epochs : Z) (s : State) :
  match fst (train epochs s) with
  | Ok _ =>
      exists c,
        trace (world (snd (train epochs s))) = trace (world s) ++ [Fit c]
        /\ fit_epochs c = epochs /\ fit_batch_size c = 32
  | Raise _ => trace (world (snd (train epochs s))) = trace (world s)
  end.
Proof.
  destruct (train_runs epochs s) as (d & g & _ & Hrun). cbv zeta in Hrun.
  rewrite Hrun. destruct (compiled (model_in_effect s)); cbn [fst snd].
  - eexists. repeat split; reflexivity.
  - reflexivity.
Qed.

(** C9: take two trainer states that are equal except for their
    configurations, and whose configurations answer [config['output_path']]
    alike (same value, or same exception), whatever their other keys
    hold.  Every operation of the trainer has the same outcome on both
    (same returned value or same exception, same files, same trace, same
    stored model and history) and leaves two states related in the same
    way.  In particular a run of [train] that returns called [fit] once,
    with the [epochs] argument of [train] and a batch size of 32. *)
Theorem only_output_path_is_read (op : Op) (s1 s2 : State) :
  agree_on_output_path s1 s2 ->
  (fst (run op s1) = fst (run op s2)
   /\ world (snd (run op s1)) = world (snd (run op s2))
   /\ model (self (snd (run op s1))) = model (self (snd (run op s2)))
   /\ history (self (snd (run op s1))) = history (self (snd (run op s2)))
   /\ agree_on_output_path (snd (run op s1)) (snd (run op s2)))
  /\ (forall epochs,
        match fst (train epochs s1) with
        | Ok _ =>
            exists c,
              trace (world (snd (train epochs s1)))
                = trace (world s1) ++ [Fit c]
              /\ fit_epochs c = epochs /\ fit_batch_size c = 32
        | Raise _ =>
            trace (world (snd (train epochs s1))) = trace (world s1)
        end).
Proof.
  intros H. split.
  - destruct (blind_run op s1 s2 H) as [Hres Hpost].
    pose proof Hpost as (_ & Hm & Hh & Hw). auto.
  - intros epochs. apply train_fit_arguments.
Qed.

(** ** The configuration file *)

Lemma loads_dumps_main_config :
  Json.loads (Json.dumps main_config) = Ok main_config.
Proof. vm_compute. reflexivity. Qed.

Lemma ancestors_models_tfjs : ancestors "models/tfjs" = ["models"].
Proof. vm_compute. reflexivity. Qed.

Lemma parent_config_path : parent "config/training_config.json" = "config".
Proof. vm_compute. reflexivity. Qed.

Lemma is_file_none (f : FileSystem) (p : string) :
  files f !! p = None -> is_file f p = false.
Proof.
  intros H. unfold is_file. apply bool_decide_eq_false_2.
  rewrite H. intros [x Hx]. discriminate.
Qed.

Lemma is_dir_elem (f : FileSystem) (p : string) :
  p ∈ dirs f -> is_dir f p = true.
Proof.
  intros H. unfold is_dir. rewrite (bool_decide_eq_true_2 _ H).
  apply orb_true_r.
Qed.

(** C7: in a world where the directory [config] exists and no file or
    directory stands in the way, [main] creates [models/tfjs], writes the
    JSON text of its configuration literal (keys [output_path], [epochs],
    [batch_size], in that order) to [config/training_config.json], and
    the very next step, the trainer's constructor, reads that file in
    the world the write left: the configuration it stores is the one
    [main] wrote. *)
Theorem main_config_round_trip (w : World) :
  "config" ∈ dirs (fs w) ->
  files (fs w) !! "models" = None ->
  files (fs w) !! "models/tfjs" = None ->
  files (fs w) !! "config" = None ->
  "config/training_config.json" ∉ dirs (fs w) ->
  exists w1 w2 t,
    os_makedirs "models/tfjs" w = (Ok tt, w1) /\
    open_write "config/training_config.json" (Json.dumps main_config) w1
      = (Ok tt, w2) /\
    files (fs w2) !! default_config_path = Some (Json.dumps main_config) /\
    __init__ default_config_path w2 = (Ok t, w2) /\
    main_setup w = (Ok t, w2) /\
    config t = main_config /\
    (exists a b c,
       config t = JObj [("output_path", a); ("epochs", b);
                        ("batch_size", c)]).
Proof.
  intros Hconfig Hmodels Htfjs Hnofile Hnodir.
  set (fs1 := {| dirs := dirs (fs w) ∪ list_to_set (ancestors "models/tfjs")
                           ∪ {["models/tfjs"]};
                 files := files (fs w) |}).
  assert (Hmk : makedirs (fs w) "models/tfjs" = Ok fs1).
  { unfold makedirs. rewrite ancestors_models_tfjs. cbn [existsb].
    rewrite (is_file_none _ _ Hmodels), (is_file_none _ _ Htfjs).
    reflexivity. }
  set (fs2 := {| dirs := dirs fs1;
                 files := <["config/training_config.json" :=
                            Json.dumps main_config]> (files fs1) |}).
  assert (Hwr : write_file fs1 "config/training_config.json"
                  (Json.dumps main_config) = Ok fs2).
  { unfold write_file. rewrite parent_config_path.
    rewrite (is_file_none fs1 "config" Hnofile).
    rewrite (is_dir_elem fs1 "config") by (cbn; set_solver).
    cbn [negb]. unfold is_dir.
    rewrite bool_decide_eq_false_2.
    - reflexivity.
    - cbn [dirs fs1]. rewrite ancestors_models_tfjs.
      intros Hin. set_unfold in Hin.
      destruct Hin as [[Hin|[Hin|[]]]|Hin];
        [exact (Hnodir Hin) | discriminate Hin | discriminate Hin]. }
  set (w1 := {| fs := fs1; np_random := np_random w;
                wall_clock := wall_clock w; clock_reads := clock_reads w;
                trace := trace w |}).
  set (w2 := {| fs := fs2; np_random := np_random w;
                wall_clock := wall_clock w; clock_reads := clock_reads w;
                trace := trace w |}).
  assert (H1 : os_makedirs "models/tfjs" w = (Ok tt, w1)).
  { unfold os_makedirs, with_fs. now rewrite Hmk. }
  assert (H2 : open_write "config/training_config.json"
                 (Json.dumps main_config) w1 = (Ok tt, w2)).
  { unfold open_write, with_fs. cbn [fs w1]. now rewrite Hwr. }
  assert (H3 : files (fs w2) !! default_config_path
               = Some (Json.dumps main_config)).
  { cbn [fs w2 files fs2]. apply lookup_insert_eq. }
  set (t := {| config := main_config; model := None; history := None |}).
  assert (H4 : __init__ default_config_path w2 = (Ok t, w2)).
  { unfold __init__, open_read, read_file.
    unfold mbind at 1, SE_bind at 1. rewrite H3.
    unfold mbind, SE_bind, from_result.
    now rewrite loads_dumps_main_config. }
  exists w1, w2, t.
  split; [exact H1|]. split; [exact H2|]. split; [exact H3|].
  split; [exact H4|]. split.
  - unfold main_setup.
    erewrite (bind_ok (S := World)) by exact H1. cbv beta zeta.
    erewrite (bind_ok (S := World)) by exact H2. exact H4.
  - split; [reflexivity|]. now eexists _, _, _.
Qed.

(** ** Edge optimisation *)

(** The converter [optimize_for_edge] runs has the default optimisation
    and float16 as its only supported type, and when the method returns,
    the file at the returned path holds the converter's output. *)
Lemma optimize_for_edge_converter (s : State) (m : Model) :
  model (self s) = Some m ->
  let converter := {| conv_model := Some m;
                      optimizations := [OptimizeDEFAULT];
                      supported_types := [float16] |} in
  match fst (optimize_for_edge s) with
  | Ok path =>
      files (fs (world (snd (optimize_for_edge s)))) !! path
      = Some (tflite_bytes converter m)
  | Raise _ => True
  end.
Proof.
  destruct s as [[cfg mo h] w]. cbn [self model]. intros ->. cbv zeta.
  cbv [optimize_for_edge mbind SE_bind mret SE_ret get_model from_result
       config_item convert from_keras_model set_optimizations
       set_supported_types conv_model optimizations supported_types
       self world model config in_world open_write with_fs emit].
  destruct (getitem cfg "output_path") as [v|e]; [|exact I].
  destruct (as_str v) as [out|e]; [|exact I].
  destruct (write_file (fs w) _ _) as [fs'|e] eqn:Hwrite; [|exact I].
  cbn [fst snd fs].
  unfold write_file in Hwrite.
  repeat match type of Hwrite with
         | (if ?b then _ else _) = _ => destruct b; try discriminate
         end.
  injection Hwrite as <-. cbn [files]. apply lookup_insert_eq.
Qed.

(* ===================================================================== *)
(** * Further properties of the methods *)
(* ===================================================================== *)

(** ** What a method leaves alone *)

(** [c] never changes what [f] reads off the state, whether it returns or
    raises. *)
Definition preserves {S X A} (f : S -> X) (c : SE S A) : Prop :=
  forall s, f (snd (c s)) = f s.

Lemma preserves_ret {S X A} (f : S -> X) (a : A) : preserves f (mret a).
Proof. intros s. reflexivity. Qed.

Lemma preserves_bind {S X A B} (f : S -> X) (c : SE S A) (k : A -> SE S B) :
  preserves f c -> (forall a, preserves f (k a)) -> preserves f (c ≫= k).
Proof.
  intros Hc Hk s. unfold mbind, SE_bind.
  specialize (Hc s). destruct (c s) as [[a|e] s']; cbn [snd] in *.
  - now rewrite Hk.
  - exact Hc.
Qed.

Lemma preserves_from_result {S X A} (f : S -> X) (r : Result A) :
  preserves f (from_result r).
Proof. intros s. reflexivity. Qed.

Lemma preserves_from_option {S X A} (f : S -> X) e (o : option A) :
  preserves f (from_option e o).
Proof. intros s. now destruct o. Qed.

Lemma preserves_raise {S X A} (f : S -> X) e : preserves f (raise (A := A) e).
Proof. intros s. reflexivity. Qed.

Lemma preserves_for_range {S X A} (f : S -> X) n (body : A -> SE S A) :
  (forall acc, preserves f (body acc)) ->
  forall acc, preserves f (for_range n body acc).
Proof.
  intros Hbody. induction n as [|n IH]; intros acc; cbn [for_range].
  - apply preserves_ret.
  - apply preserves_bind; [apply Hbody | exact IH].
Qed.

(** A step in the environment leaves the trainer alone, and leaves alone
    in the state what it leaves alone in the environment. *)
Lemma preserves_in_world_self {X A} (f : Trainer -> X) (c : SE World A) :
  preserves (fun s => f (self s)) (in_world c).
Proof. intros s. unfold in_world. now destruct (c (world s)). Qed.

Lemma preserves_in_world {X A} (g : World -> X) (c : SE World A) :
  preserves g c -> preserves (fun s => g (world s)) (in_world c).
Proof.
  intros Hc s. unfold in_world. specialize (Hc (world s)).
  now destruct (c (world s)).
Qed.

(** The steps that cannot be taken apart further. *)
Ltac preserves_primitive :=
  let s := fresh "s" in
  intros s;
  cbv [in_world emit print time_time draw with_fs open_read open_write
       os_makedirs set_model set_history get_model config_item];
  repeat match goal with
         | |- context [match ?x with _ => _ end] => destruct x
         end;
  reflexivity.

Ltac preserves_step :=
  lazymatch goal with
  | |- preserves _ (mbind _ _) => apply preserves_bind; [|intros ?]
  | |- preserves _ (mret _) => apply preserves_ret
  | |- preserves _ (from_result _) => apply preserves_from_result
  | |- preserves _ (from_option _ _) => apply preserves_from_option
  | |- preserves _ (raise _) => apply preserves_raise
  | |- preserves _ (for_range _ _ _) => apply preserves_for_range; intros ?
  | |- preserves _ (match ?x with _ => _ end) => destruct x
  | |- preserves (fun s => _ (self s)) (in_world _) =>
      apply preserves_in_world_self
  | |- preserves (fun s => _ (world s)) (in_world _) =>
      apply preserves_in_world
  end.

Ltac preserves_auto :=
  cbv zeta; repeat preserves_step; try preserves_primitive.

Ltac preserves_unfold :=
  unfold train, optimize_for_edge, save_model, evaluate_latency;
  unfold create_model, prepare_data, model_fit, predict, saved_model_save;
  unfold self_model, np_random_rand_images, np_random_rand_column,
    np_random_randint;
  unfold draws.

(** *** The file system *)

Lemma prepare_data_keeps_fs : preserves (fun s => fs (world s)) prepare_data.
Proof. preserves_unfold. preserves_auto. Qed.

Lemma evaluate_latency_keeps_fs :
  preserves (fun s => fs (world s)) evaluate_latency.
Proof. preserves_unfold. preserves_auto. Qed.

(** With a model stored, [train] assembles nothing and asks nothing of
    the file system. *)
Lemma train_stored_keeps_fs (epochs : Z) (s : State) (m : Model) :
  model (self s) = Some m ->
  fs (world (snd (train epochs s))) = fs (world s).
Proof.
  intros Hm.
  destruct (train_runs epochs s) as (d & g & _ & Hrun). cbv zeta in Hrun.
  rewrite Hrun. now destruct (compiled (model_in_effect s)).
Qed.

(** Preparing data and benchmarking never create, write or remove a file
    or a directory, whether they return or raise; neither does training a
    model that is already stored.  (Assembling a model is left out: the
    pretrained weights it asks the framework for may be fetched into the
    framework's own cache.) *)
Theorem data_training_benchmark_keep_files (s : State) (epochs : Z) :
  fs (world (snd (prepare_data s))) = fs (world s)
  /\ fs (world (snd (evaluate_latency s))) = fs (world s)
  /\ (forall m, model (self s) = Some m ->
        fs (world (snd (train epochs s))) = fs (world s)).
Proof.
  split; [apply prepare_data_keeps_fs|].
  split; [apply evaluate_latency_keeps_fs|].
  intros m Hm. now apply (train_stored_keeps_fs epochs s m).
Qed.

(** *** The clock and the generator *)

Lemma create_model_keeps_clock :
  preserves (fun s => clock_reads (world s)) create_model.
Proof. preserves_unfold. preserves_auto. Qed.

Lemma prepare_data_keeps_clock :
  preserves (fun s => clock_reads (world s)) prepare_data.
Proof. preserves_unfold. preserves_auto. Qed.

Lemma train_keeps_clock epochs :
  preserves (fun s => clock_reads (world s)) (train epochs).
Proof. preserves_unfold. preserves_auto. Qed.

Lemma optimize_for_edge_keeps_clock :
  preserves (fun s => clock_reads (world s)) optimize_for_edge.
Proof. preserves_unfold. preserves_auto. Qed.

Lemma save_model_keeps_clock :
  preserves (fun s => clock_reads (world s)) save_model.
Proof. preserves_unfold. preserves_auto. Qed.

Lemma create_model_keeps_generator :
  preserves (fun s => np_random (world s)) create_model.
Proof. preserves_unfold. preserves_auto. Qed.

Lemma optimize_for_edge_keeps_generator :
  preserves (fun s => np_random (world s)) optimize_for_edge.
Proof. preserves_unfold. preserves_auto. Qed.

Lemma save_model_keeps_generator :
  preserves (fun s => np_random (world s)) save_model.
Proof. preserves_unfold. preserves_auto. Qed.

(** Only [evaluate_latency] reads the clock, and only [prepare_data],
    [train] and [evaluate_latency] draw from NumPy's generator: the other
    methods leave the number of clock readings, respectively the generator
    state, as they found it. *)
Theorem clock_and_generator_untouched (s : State) (epochs : Z) :
  (clock_reads (world (snd (create_model s))) = clock_reads (world s)
   /\ clock_reads (world (snd (prepare_data s))) = clock_reads (world s)
   /\ clock_reads (world (snd (train epochs s))) = clock_reads (world s)
   /\ clock_reads (world (snd (optimize_for_edge s))) = clock_reads (world s)
   /\ clock_reads (world (snd (save_model s))) = clock_reads (world s))
  /\ (np_random (world (snd (create_model s))) = np_random (world s)
      /\ np_random (world (snd (optimize_for_edge s))) = np_random (world s)
      /\ np_random (world (snd (save_model s))) = np_random (world s)).
Proof.
  split.
  - split; [apply create_model_keeps_clock|].
    split; [apply prepare_data_keeps_clock|].
    split; [apply train_keeps_clock|].
    split; [apply optimize_for_edge_keeps_clock
           | apply save_model_keeps_clock].
  - split; [apply create_model_keeps_generator|].
    split; [apply optimize_for_edge_keeps_generator
           | apply save_model_keeps_generator].
Qed.

(** *** The stored model and history *)

Definition stored (t : Trainer) : option Model * option History :=
  (model t, history t).

Lemma prepare_data_keeps_stored :
  preserves (fun s => stored (self s)) prepare_data.
Proof. preserves_unfold. preserves_auto. Qed.

Lemma optimize_for_edge_keeps_stored :
  preserves (fun s => stored (self s)) optimize_for_edge.
Proof. preserves_unfold. preserves_auto. Qed.

Lemma save_model_keeps_stored :
  preserves (fun s => stored (self s)) save_model.
Proof. preserves_unfold. preserves_auto. Qed.

Lemma evaluate_latency_keeps_stored :
  preserves (fun s => stored (self s)) evaluate_latency.
Proof. preserves_unfold. preserves_auto. Qed.

(** Preparing data, exporting, saving and benchmarking are read-only on
    the trainer: [self.model] and [self.history] are the same objects
    afterwards, whether the method returned or raised. *)
Theorem model_and_history_untouched (s : State) :
  let unchanged (s' : State) :=
    model (self s') = model (self s) /\ history (self s') = history (self s) in
  unchanged (snd (prepare_data s))
  /\ unchanged (snd (optimize_for_edge s))
  /\ unchanged (snd (save_model s))
  /\ unchanged (snd (evaluate_latency s)).
Proof.
  cbv zeta.
  pose proof (prepare_data_keeps_stored s) as H1.
  pose proof (optimize_for_edge_keeps_stored s) as H2.
  pose proof (save_model_keeps_stored s) as H3.
  pose proof (evaluate_latency_keeps_stored s) as H4.
  unfold stored in *. cbv beta in *.
  injection H1 as H1h H1m. injection H2 as H2h H2m.
  injection H3 as H3h H3m. injection H4 as H4h H4m.
  repeat split; assumption.
Qed.

(** ** An invariant of the trainer *)

(** A stored model has been compiled, and a history is stored only
    together with a model. *)
Definition consistent (t : Trainer) : Prop :=
  (forall m, model t = Some m -> compiled m <> None)
  /\ (history t <> None -> model t <> None).

Lemma consistent_stored (t t' : Trainer) :
  stored t' = stored t -> consistent t -> consistent t'.
Proof.
  unfold stored, consistent. intros Heq [Hm Hh].
  injection Heq as -> ->. now split.
Qed.

Lemma compiled_in_effect (s : State) :
  consistent (self s) -> exists cfg, compiled (model_in_effect s) = Some cfg.
Proof.
  intros [Hm _]. unfold model_in_effect.
  destruct (model (self s)) as [m|] eqn:Hmodel.
  - specialize (Hm m eq_refl). destruct (compiled m) as [cfg|]; [|easy].
    now exists cfg.
  - now eexists.
Qed.

Lemma train_returns (epochs : Z) (s : State) :
  consistent (self s) -> is_ok (fst (train epochs s)) = true.
Proof.
  intros Hcons. destruct (compiled_in_effect s Hcons) as [cfg Hcfg].
  destruct (train_runs epochs s) as (d & g & _ & Hrun). cbv zeta in Hrun.
  rewrite Hrun, Hcfg. reflexivity.
Qed.

Lemma train_consistent (epochs : Z) (s : State) :
  consistent (self s) -> consistent (self (snd (train epochs s))).
Proof.
  intros Hcons. destruct (compiled_in_effect s Hcons) as [cfg Hcfg].
  destruct (train_runs epochs s) as (d & g & _ & Hrun). cbv zeta in Hrun.
  rewrite Hrun, Hcfg. cbn [snd self]. split; cbn [model history].
  - intros m [= <-]. cbn [compiled fitted_model fit_model train_fit_call].
    now rewrite Hcfg.
  - discriminate.
Qed.

Lemma create_model_consistent (s : State) :
  consistent (self (snd (create_model s))).
Proof.
  rewrite create_model_eq. cbn [snd self with_model]. split; cbn [model].
  - now intros m [= <-].
  - discriminate.
Qed.

Lemma run_consistent (op : Op) (s : State) :
  consistent (self s) -> consistent (self (snd (run op s))).
Proof.
  intros Hcons.
  assert (Hsnd : forall {A} (c : M A) (f : A -> Returned),
            snd ((a ← c; mret (f a)) s) = snd (c s)).
  { intros A c f. unfold mbind, SE_bind. now destruct (c s) as [[a|e] s']. }
  destruct op; cbn [run].
  - rewrite Hsnd. apply create_model_consistent.
  - rewrite Hsnd.
    exact (consistent_stored _ _ (prepare_data_keeps_stored s) Hcons).
  - rewrite Hsnd. now apply train_consistent.
  - rewrite Hsnd.
    exact (consistent_stored _ _ (optimize_for_edge_keeps_stored s) Hcons).
  - change (save_model;; mret RNone) with (a ← save_model; mret ((fun _ => RNone) a)).
    rewrite Hsnd.
    exact (consistent_stored _ _ (save_model_keeps_stored s) Hcons).
  - rewrite Hsnd.
    exact (consistent_stored _ _ (evaluate_latency_keeps_stored s) Hcons).
Qed.

(** Whatever the trainer's methods are called with and in whatever order,
    and whether they return or raise, a stored model is always a compiled
    one and a history is never stored without a model. *)
Theorem trainer_stays_consistent (ops : list Op) (s : State) :
  consistent (self s) -> consistent (self (snd (run_all ops s))).
Proof.
  revert s. induction ops as [|op ops IH]; intros s Hcons; [exact Hcons|].
  cbn [run_all]. unfold mbind, SE_bind.
  pose proof (run_consistent op s Hcons) as Hop.
  destruct (run op s) as [[r|e] s']; cbn [snd] in *.
  - now apply IH.
  - exact Hop.
Qed.

(** On a trainer as its constructor leaves it (no model, no history),
    after any sequence of method calls, [train] returns: the model it
    finds is compiled, or it assembles one. *)
Theorem train_returns_after_any_calls (ops : list Op) (epochs : Z) (s : State) :
  model (self s) = None ->
  history (self s) = None ->
  exists h,
    fst (train epochs (snd (run_all ops s))) = Ok h
    /\ history (self (snd (train epochs (snd (run_all ops s))))) = Some h.
Proof.
  intros Hm Hh.
  assert (Hcons : consistent (self (snd (run_all ops s)))).
  { apply trainer_stays_consistent. split.
    - rewrite Hm. discriminate.
    - now rewrite Hh. }
  destruct (compiled_in_effect _ Hcons) as [cfg Hcfg].
  destruct (train_runs epochs (snd (run_all ops s))) as (d & g & _ & Hrun).
  cbv zeta in Hrun. rewrite Hrun, Hcfg. cbn [fst snd self history].
  eexists. split; reflexivity.
Qed.

(** ** Calls on a trainer that is not ready *)

(** Before any model is stored, [evaluate_latency] raises the
    [AttributeError] of [None.predict] at the first warm-up inference: it
    has drawn its test input from the generator, but has read no clock,
    printed nothing, and changed neither the trainer nor the files. *)
Theorem evaluate_latency_without_model (s : State) :
  model (self s) = None ->
  fst (evaluate_latency s) = Raise (AttributeError "predict")
  /\ np_random (world (snd (evaluate_latency s)))
     = snd (rand_image (np_random (world s)))
  /\ clock_reads (world (snd (evaluate_latency s))) = clock_reads (world s)
  /\ trace (world (snd (evaluate_latency s))) = trace (world s)
  /\ fs (world (snd (evaluate_latency s))) = fs (world s)
  /\ self (snd (evaluate_latency s)) = self s.
Proof.
  destruct s as [[cfg mo h] w]. cbn [self model world]. intros ->.
  cbv [evaluate_latency in_world np_random_rand_images draws for_range draw
       mbind SE_bind mret SE_ret predict self_model get_model from_option
       raise self world model].
  destruct (rand_image (np_random w)) as [img g].
  cbn. repeat split; reflexivity.
Qed.

(** The string [config['output_path']] the export methods join their file
    names to, or the exception that reading it as a path raises. *)
Definition output_path_of (t : Trainer) : Result string :=
  match getitem (config t) "output_path" with
  | Ok v => as_str v
  | Raise e => Raise e
  end.

Lemma output_path_of_error (t : Trainer) (e : Exn) :
  output_path_of t = Raise e -> e = KeyError "output_path" \/ e = TypeError.
Proof.
  unfold output_path_of, getitem, as_str.
  destruct (config t) as [| | | |items|d]; try (intros [= <-]; now right).
  destruct (dict_get "output_path" d) as [v|].
  - destruct v; intros [= <-]; now right.
  - intros [= <-]. now left.
Qed.

(** When [config['output_path']] cannot be used as a path (the key is
    missing, the configuration is not an object, or the value is not a
    string), [save_model] raises that [KeyError] or [TypeError], and so
    does [optimize_for_edge] once a model is stored; neither writes a file,
    prints, or changes the trainer. *)
Theorem unusable_output_path (s : State) (e : Exn) :
  output_path_of (self s) = Raise e ->
  (e = KeyError "output_path" \/ e = TypeError)
  /\ save_model s = (Raise e, s)
  /\ (forall m, model (self s) = Some m -> optimize_for_edge s = (Raise e, s)).
Proof.
  intros Hpath. split; [now apply output_path_of_error in Hpath|].
  unfold output_path_of in Hpath.
  split.
  - cbv [save_model mbind SE_bind config_item from_result].
    destruct (getitem (config (self s)) "output_path") as [v|e'].
    + now rewrite Hpath.
    + now injection Hpath as ->.
  - intros m Hm.
    cbv [optimize_for_edge mbind SE_bind get_model config_item from_result
         convert from_keras_model set_optimizations set_supported_types
         conv_model].
    rewrite Hm.
    destruct (getitem (config (self s)) "output_path") as [v|e'].
    + now rewrite Hpath.
    + now injection Hpath as ->.
Qed.

(** With a usable output path but no model stored, [save_model] raises the
    [AttributeError] of [None.save] before anything is written or
    printed. *)
Theorem save_model_without_model (s : State) (p : string) :
  model (self s) = None ->
  output_path_of (self s) = Ok p ->
  save_model s = (Raise (AttributeError "save"), s).
Proof.
  intros Hm Hpath. unfold output_path_of in Hpath.
  cbv [save_model mbind SE_bind config_item from_result self_model get_model
       from_option raise].
  destruct (getitem (config (self s)) "output_path") as [v|e']; [|discriminate].
  rewrite Hpath, Hm. reflexivity.
Qed.

(** ** Exporting and saving *)

Lemma append_inj_l (p a b : string) : p +:+ a = p +:+ b -> a = b.
Proof.
  induction p as [|c p IH]; cbn; [easy|]. intros [= H]. now apply IH.
Qed.

(** Two different relative names joined to the same directory give two
    different paths. *)
Lemma path_join_inj (p a b : string) :
  starts_with_sep a = false -> starts_with_sep b = false ->
  path_join p a = path_join p b -> a = b.
Proof.
  unfold path_join. intros -> ->.
  destruct (String.eqb p "" || ends_with_sep p)%bool; intros H.
  - now apply append_inj_l in H.
  - apply append_inj_l in H. now apply (append_inj_l "/") in H.
Qed.

(** With a model stored, a usable output path, and the output directory in
    place, [optimize_for_edge] returns [output_path/micromentor_edge.tflite],
    having written there the bytes of the converter run on the stored model
    with the default optimisation and float16, and printed their size in
    MiB; every other file, the directories and the trainer are unchanged. *)
Theorem optimize_for_edge_exports (s : State) (m : Model) (p : string) :
  model (self s) = Some m ->
  output_path_of (self s) = Ok p ->
  let path := path_join p "micromentor_edge.tflite" in
  let bytes := tflite_bytes {| conv_model := Some m;
                               optimizations := [OptimizeDEFAULT];
                               supported_types := [float16] |} m in
  is_file (fs (world s)) (parent path) = false ->
  is_dir (fs (world s)) (parent path) = true ->
  is_dir (fs (world s)) path = false ->
  let s' := snd (optimize_for_edge s) in
  fst (optimize_for_edge s) = Ok path
  /\ self s' = self s
  /\ dirs (fs (world s')) = dirs (fs (world s))
  /\ files (fs (world s')) = <[path := bytes]> (files (fs (world s)))
  /\ trace (world s')
     = trace (world s)
       ++ [PrintFixed2 "Optimized model size: "
             (inject_Z (Z.of_nat (String.length bytes))
              / inject_Z (1024 * 1024))%Q " MB"].
Proof.
  destruct s as [[cfg mo h] w]. cbn [self model world config].
  intros -> Hpath. cbv zeta. intros Hnofile Hdir Hnodir.
  unfold output_path_of in Hpath. cbn [config] in Hpath.
  cbv [optimize_for_edge mbind SE_bind mret SE_ret get_model config_item
       from_result convert from_keras_model set_optimizations
       set_supported_types conv_model optimizations supported_types
       in_world open_write with_fs emit self world model config].
  destruct (getitem cfg "output_path") as [v|e']; [|discriminate].
  rewrite Hpath. unfold write_file. rewrite Hnofile, Hdir, Hnodir.
  cbn. repeat split; reflexivity.
Qed.

(** [save_model] is not atomic: when the model file can be written but a
    regular file already stands where the [tfjs] directory should go, the
    method raises, and the model file it wrote first stays on disk; nothing
    is printed and the trainer is unchanged. *)
Theorem save_model_not_atomic (s : State) (m : Model) (p : string) :
  model (self s) = Some m ->
  output_path_of (self s) = Ok p ->
  let keras_path := path_join p "micromentor_model.h5" in
  let tfjs_path := path_join p "tfjs" in
  is_file (fs (world s)) (parent keras_path) = false ->
  is_dir (fs (world s)) (parent keras_path) = true ->
  is_dir (fs (world s)) keras_path = false ->
  is_file (fs (world s)) tfjs_path = true ->
  let s' := snd (save_model s) in
  is_ok (fst (save_model s)) = false
  /\ files (fs (world s')) = <[keras_path := h5_bytes m]> (files (fs (world s)))
  /\ dirs (fs (world s')) = dirs (fs (world s))
  /\ trace (world s') = trace (world s)
  /\ self s' = self s.
Proof.
  destruct s as [[cfg mo h] w]. cbn [self model world config].
  intros -> Hpath. cbv zeta. intros Hnofile Hdir Hnodir Htfjs.
  unfold output_path_of in Hpath. cbn [config] in Hpath.
  assert (Hne : path_join p "micromentor_model.h5" <> path_join p "tfjs").
  { intros H. now apply path_join_inj in H. }
  set (fs1 := {| dirs := dirs (fs w);
                 files := <[path_join p "micromentor_model.h5" := h5_bytes m]>
                            (files (fs w)) |}).
  assert (Hblocked : is_ok (makedirs fs1 (path_join p "tfjs")) = false
                     /\ forall e, makedirs fs1 (path_join p "tfjs") <> Ok e).
  { unfold makedirs.
    assert (Hfile : is_file fs1 (path_join p "tfjs") = true).
    { unfold is_file in *. cbn [files fs1].
      now rewrite lookup_insert_ne. }
    rewrite Hfile.
    destruct (existsb (is_file fs1) (ancestors (path_join p "tfjs")));
      split; easy. }
  cbv [save_model mbind SE_bind mret SE_ret self_model get_model config_item
       from_result from_option in_world open_write with_fs saved_model_save
       os_makedirs self world model config].
  destruct (getitem cfg "output_path") as [v|e'] eqn:Hget; [|discriminate].
  rewrite Hpath. unfold write_file. rewrite Hnofile, Hdir, Hnodir.
  cbn [negb fs config self]. rewrite ?Hget, ?Hpath. fold fs1.
  destruct (makedirs fs1 (path_join p "tfjs")) as [fs2|e] eqn:Hmk.
  - destruct Hblocked as [Hok _]. discriminate Hok.
  - cbn. repeat split; reflexivity.
Qed.

(** ** Methods that ignore the configuration *)

(** Two states that differ at most in their configurations. *)
Definition same_but_config (s1 s2 : State) : Prop :=
  model (self s1) = model (self s2)
  /\ history (self s1) = history (self s2)
  /\ world s1 = world s2.

Definition ignores_config {A} (c : M A) : Prop :=
  forall s1 s2,
    same_but_config s1 s2 ->
    fst (c s1) = fst (c s2) /\ same_but_config (snd (c s1)) (snd (c s2)).

Lemma ignores_config_ret {A} (a : A) : ignores_config (mret a).
Proof. intros s1 s2 H. now split. Qed.

Lemma ignores_config_bind {A B} (c : M A) (f : A -> M B) :
  ignores_config c -> (forall a, ignores_config (f a)) ->
  ignores_config (c ≫= f).
Proof.
  intros Hc Hf s1 s2 H. unfold mbind, SE_bind.
  destruct (Hc s1 s2 H) as [Hres Hpost].
  destruct (c s1) as [r1 s1'], (c s2) as [r2 s2']. cbn [fst snd] in *.
  subst r2. destruct r1 as [a|e].
  - now apply Hf.
  - now split.
Qed.

Lemma ignores_config_in_world {A} (c : SE World A) :
  ignores_config (in_world c).
Proof.
  intros s1 s2 (Hm & Hh & Hw). unfold in_world. rewrite Hw.
  destruct (c (world s2)) as [r w]. now repeat split.
Qed.

Lemma ignores_config_from_result {A} (r : Result A) :
  ignores_config (from_result r).
Proof. intros s1 s2 H. now split. Qed.

Lemma ignores_config_from_option {A} e (o : option A) :
  ignores_config (from_option e o).
Proof. intros s1 s2 H. destruct o; now split. Qed.

Lemma ignores_config_raise {A} e : ignores_config (raise (A := A) e).
Proof. intros s1 s2 H. now split. Qed.

Lemma ignores_config_get_model : ignores_config get_model.
Proof.
  intros s1 s2 H. split; [|exact H].
  destruct H as (Hm & _). cbn. now rewrite Hm.
Qed.

Lemma ignores_config_set_model m : ignores_config (set_model m).
Proof. intros s1 s2 (Hm & Hh & Hw). now repeat split. Qed.

Lemma ignores_config_set_history h : ignores_config (set_history h).
Proof. intros s1 s2 (Hm & Hh & Hw). now repeat split. Qed.

Lemma ignores_config_for_range {A} n (body : A -> M A) :
  (forall acc, ignores_config (body acc)) ->
  forall acc, ignores_config (for_range n body acc).
Proof.
  intros Hbody. induction n as [|n IH]; intros acc; cbn [for_range].
  - apply ignores_config_ret.
  - apply ignores_config_bind; [apply Hbody | exact IH].
Qed.

Ltac ignores_config_step :=
  lazymatch goal with
  | |- ignores_config (mbind _ _) => apply ignores_config_bind; [|intros ?]
  | |- ignores_config (mret _) => apply ignores_config_ret
  | |- ignores_config (in_world _) => apply ignores_config_in_world
  | |- ignores_config (from_result _) => apply ignores_config_from_result
  | |- ignores_config (from_option _ _) => apply ignores_config_from_option
  | |- ignores_config (raise _) => apply ignores_config_raise
  | |- ignores_config get_model => apply ignores_config_get_model
  | |- ignores_config (set_model _) => apply ignores_config_set_model
  | |- ignores_config (set_history _) => apply ignores_config_set_history
  | |- ignores_config (for_range _ _ _) =>
      apply ignores_config_for_range; intros ?
  | |- ignores_config (match ?x with _ => _ end) => destruct x
  end.

Ltac ignores_config_auto := cbv zeta; repeat ignores_config_step.

Lemma ignores_config_create_model : ignores_config create_model.
Proof. unfold create_model. ignores_config_auto. Qed.

Lemma ignores_config_prepare_data : ignores_config prepare_data.
Proof. unfold prepare_data. ignores_config_auto. Qed.

Lemma ignores_config_train epochs : ignores_config (train epochs).
Proof.
  unfold train, self_model, model_fit. ignores_config_auto;
    auto using ignores_config_create_model, ignores_config_prepare_data.
Qed.

Lemma ignores_config_evaluate_latency : ignores_config evaluate_latency.
Proof. unfold evaluate_latency, predict, self_model. ignores_config_auto. Qed.

(** Assembling, preparing data, training and benchmarking do not read the
    configuration at all: on two states with the same model, history and
    environment and any two configurations (even one without
    [output_path]), each has the same outcome and leaves the same model,
    history and environment. *)
Theorem configuration_not_read (s1 s2 : State) (epochs : Z) :
  same_but_config s1 s2 ->
  (fst (create_model s1) = fst (create_model s2)
   /\ same_but_config (snd (create_model s1)) (snd (create_model s2)))
  /\ (fst (prepare_data s1) = fst (prepare_data s2)
      /\ same_but_config (snd (prepare_data s1)) (snd (prepare_data s2)))
  /\ (fst (train epochs s1) = fst (train epochs s2)
      /\ same_but_config (snd (train epochs s1)) (snd (train epochs s2)))
  /\ (fst (evaluate_latency s1) = fst (evaluate_latency s2)
      /\ same_but_config (snd (evaluate_latency s1))
           (snd (evaluate_latency s2))).
Proof.
  intros H.
  split; [now apply ignores_config_create_model|].
  split; [now apply ignores_config_prepare_data|].
  split; [now apply ignores_config_train
         | now apply ignores_config_evaluate_latency].
Qed.

(** ** Training a stored model *)

(** [prepare_data] in terms of its draws, in the order of the source: the
    samples, then the class labels, then the fatigue column, each from the
    generator state the previous draw left. *)
Lemma prepare_data_draws (s : State) :
  exists X emotions y_emotion y_fatigue w1 w2 w3,
    np_random_rand_images num_samples (world s) = (Ok X, w1)
    /\ np_random_randint 0 5 num_samples w1 = (Ok emotions, w2)
    /\ to_categorical emotions 5 = Ok y_emotion
    /\ np_random_rand_column num_samples w2 = (Ok y_fatigue, w3)
    /\ length X = num_samples /\ length y_emotion = num_samples
    /\ length y_fatigue = num_samples
    /\ prepare_data s =
         (Ok ((take 800 X, [("emotion", take 800 y_emotion);
                            ("fatigue", take 800 y_fatigue)]),
              (drop 800 X, [("emotion", drop 800 y_emotion);
                            ("fatigue", drop 800 y_fatigue)])),
          in_state (self s) w3).
Proof.
  unfold prepare_data.
  destruct (draws_returns rand_image (fun _ => True) (fun _ => I)
              num_samples (world s)) as (X & g1 & HX & HlenX & _).
  destruct (draws_returns
              (fun g => let '(k, g') := rand_bits g in (0 + k mod (5 - 0), g'))
              (fun c => c < 5) randint_below
              num_samples (with_rng g1 (world s)))
    as (emotions & g2 & Hemo & HlenE & Hlt).
  destruct (to_categorical_returns emotions 5 Hlt) as (ye & Hye & HlenY).
  destruct (draws_returns
              (fun g => let '(q, g') := rand_float g in ([q], g'))
              (fun _ => True) (fun _ => I)
              num_samples (with_rng g2 (with_rng g1 (world s))))
    as (yf & g3 & Hyf & HlenF & _).
  exists X, emotions, ye, yf, (with_rng g1 (world s)),
         (with_rng g2 (with_rng g1 (world s))),
         (with_rng g3 (with_rng g2 (with_rng g1 (world s)))).
  split; [exact HX|]. split; [exact Hemo|]. split; [exact Hye|].
  split; [exact Hyf|].
  split; [exact HlenX|]. split; [lia|]. split; [exact HlenF|].
  erewrite bind_ok by (apply in_world_eq; exact HX).
  erewrite bind_ok by (apply in_world_eq; exact Hemo).
  erewrite bind_ok by (unfold from_result; rewrite Hye; reflexivity).
  erewrite bind_ok by (apply in_world_eq; exact Hyf).
  rewrite split_idx_is_800. cbn [from_option].
  erewrite bind_ok by reflexivity.
  unfold num_samples in *.
  rewrite !slice_to_800, !slice_from_800 by lia.
  reflexivity.
Qed.

(** With a compiled model stored, [train] does not assemble a new one: it
    calls [fit] once, on the stored model, with exactly what [prepare_data]
    returns on that state: of the 1000 samples, the class labels (one-hot
    encoded) and the fatigue column that are drawn, in this order, from the
    generator, the first 800 rows of each are the training data and the
    last 200 the validation data, the labels keyed [emotion] and
    [fatigue]; [fit] gets the epochs argument, batch size 32 and
    [verbose=1]; the fitted model is stored, and the history of that call
    is returned and stored. *)
Theorem train_fits_stored_model (epochs : Z) (s : State) (m : Model)
    (cfg : Compiled) :
  model (self s) = Some m ->
  compiled m = Some cfg ->
  exists c X emotions y_emotion y_fatigue w1 w2 w3,
    np_random_rand_images num_samples (world s) = (Ok X, w1)
    /\ np_random_randint 0 5 num_samples w1 = (Ok emotions, w2)
    /\ to_categorical emotions 5 = Ok y_emotion
    /\ np_random_rand_column num_samples w2 = (Ok y_fatigue, w3)
    /\ fst (prepare_data s) = Ok ((fit_x c, fit_y c), fit_validation_data c)
    /\ fit_x c = take 800 X
    /\ fit_y c = [("emotion", take 800 y_emotion);
                  ("fatigue", take 800 y_fatigue)]
    /\ fit_validation_data c
       = (drop 800 X, [("emotion", drop 800 y_emotion);
                       ("fatigue", drop 800 y_fatigue)])
    /\ length X = 1000 /\ length y_emotion = 1000 /\ length y_fatigue = 1000
    /\ length (fit_x c) = 800
    /\ length (fst (fit_validation_data c)) = 200
    /\ fit_model c = m
    /\ fit_epochs c = epochs
    /\ fit_batch_size c = 32
    /\ fit_verbose c = 1
    /\ fst (train epochs s) = Ok (fit_history c)
    /\ trace (world (snd (train epochs s))) = trace (world s) ++ [Fit c]
    /\ model (self (snd (train epochs s))) = Some (fitted_model c)
    /\ history (self (snd (train epochs s))) = Some (fit_history c).
Proof.
  intros Hm Hcfg.
  destruct (train_runs epochs s) as (d & g & Hd & Hrun). cbv zeta in *.
  rewrite (model_in_effect_some s m Hm) in *. rewrite Hcfg in Hrun.
  assert (Hsame : same_but_config s (with_model m s)).
  { repeat split; cbn [with_model self world model history]; auto. }
  destruct (ignores_config_prepare_data s (with_model m s) Hsame)
    as [Hres Hpost].
  destruct (prepare_data_draws s)
    as (X & emotions & ye & yf & w1 & w2 & w3 & HX & Hemo & Hcat & Hyf
        & HlenX & HlenE & HlenF & Hprep).
  rewrite <- Hres, Hprep in Hd. injection Hd as <-.
  exists (train_fit_call m
            (take 800 X, [("emotion", take 800 ye); ("fatigue", take 800 yf)],
             (drop 800 X, [("emotion", drop 800 ye); ("fatigue", drop 800 yf)]))
            epochs),
         X, emotions, ye, yf, w1, w2, w3.
  split; [exact HX|]. split; [exact Hemo|]. split; [exact Hcat|].
  split; [exact Hyf|].
  rewrite Hrun, Hprep. unfold num_samples in *.
  cbn [fst snd self world model history trace with_event train_fit_call
       fit_model fit_x fit_y fit_validation_data fit_verbose fit_epochs
       fit_batch_size np_random].
  rewrite !length_take, !length_drop, HlenX.
  repeat split; try reflexivity; try assumption.
Qed.

(** Two calls of [train] in a row on a trainer without a model: the first
    assembles the model and fits it, the second fits the model the first
    one left, so training continues from the fitted weights. *)
Theorem train_twice_continues (e1 e2 : Z) (s : State) :
  model (self s) = None ->
  exists c1 c2,
    trace (world (snd (train e2 (snd (train e1 s)))))
      = trace (world s) ++ [Fit c1; Fit c2]
    /\ fst (create_model s) = Ok (fit_model c1)
    /\ fit_model c2 = fitted_model c1
    /\ fit_epochs c1 = e1 /\ fit_epochs c2 = e2
    /\ model (self (snd (train e2 (snd (train e1 s)))))
       = Some (fitted_model c2)
    /\ history (self (snd (train e2 (snd (train e1 s)))))
       = Some (fit_history c2).
Proof.
  intros Hnone.
  destruct (train_runs e1 s) as (d1 & g1 & _ & Hrun1). cbv zeta in Hrun1.
  rewrite (model_in_effect_none s Hnone) in Hrun1.
  cbn [compiled assembled_model] in Hrun1.
  set (c1 := train_fit_call assembled_model d1 e1) in *.
  set (s1 := snd (train e1 s)).
  assert (Hm1 : model (self s1) = Some (fitted_model c1))
    by (subst s1; now rewrite Hrun1).
  destruct (train_runs e2 s1) as (d2 & g2 & _ & Hrun2). cbv zeta in Hrun2.
  rewrite (model_in_effect_some s1 _ Hm1) in Hrun2.
  cbn [compiled fitted_model fit_model c1 train_fit_call assembled_model]
    in Hrun2.
  exists c1, (train_fit_call (fitted_model c1) d2 e2).
  rewrite Hrun2. cbn [snd world self model history trace with_event with_rng].
  subst s1. rewrite Hrun1. cbn [snd world trace with_event with_rng].
  rewrite <- app_assoc. repeat split; reflexivity.
Qed.

(** ** Fitting keeps the architecture *)

Lemma fit_layer_output_shape (c : FitCall) (l : Layer) (s : Shape) :
  layer_output_shape (fit_layer c l) s = layer_output_shape l s.
Proof. destruct l; reflexivity. Qed.

Lemma fit_layers_shape_through (c : FitCall) (ls : list Layer) :
  forall s, shape_through (map (fit_layer c) ls) s = shape_through ls s.
Proof.
  induction ls as [|l ls IH]; intros s; [reflexivity|].
  cbn [map shape_through]. rewrite fit_layer_output_shape.
  destruct (layer_output_shape l s); [apply IH | reflexivity].
Qed.

Lemma fit_tensor_shape (c : FitCall) (x : KTensor) :
  shape_of (fit_tensor c x) = shape_of x.
Proof. apply fit_layers_shape_through. Qed.

Lemma last_map_some {A B} (f : A -> B) (l : list A) :
  List.last (map Some (map f l)) None
  = option_map f (List.last (map Some l) None).
Proof.
  induction l as [|a l IH]; [reflexivity|].
  destruct l as [|b l]; [reflexivity|].
  exact IH.
Qed.

Lemma fit_tensor_output_layer (c : FitCall) (x : KTensor) :
  output_layer (fit_tensor c x) = option_map (fit_layer c) (output_layer x).
Proof. apply last_map_some. Qed.

(** Whatever [fit] does to the weights, the fitted model has the outputs
    of the model it was called on: same number, names, shapes, units and
    activations, and the same compile settings. *)
Lemma fitted_model_architecture (c : FitCall) :
  output_names (fitted_model c) = output_names (fit_model c)
  /\ output_shapes (fitted_model c) = output_shapes (fit_model c)
  /\ output_heads (fitted_model c) = output_heads (fit_model c)
  /\ compiled (fitted_model c) = compiled (fit_model c).
Proof.
  unfold output_names, output_shapes, output_heads, fitted_model.
  cbn [outputs compiled]. rewrite !map_map.
  repeat split.
  - apply map_ext. intros x. rewrite fit_tensor_output_layer.
    destruct (output_layer x) as [[]|]; reflexivity.
  - apply map_ext. intros x. apply fit_tensor_shape.
  - apply map_ext. intros x. rewrite fit_tensor_output_layer.
    destruct (output_layer x) as [[]|]; reflexivity.
Qed.

(** [train] never changes the architecture of a stored model, whether
    [fit] runs or raises: the model stored afterwards has the same output
    names, shapes, units and activations, and the same per-output losses
    and metrics.  (Nothing is said of the optimiser, whose learning rate a
    callback may lower during [fit].) *)
Theorem train_keeps_architecture (epochs : Z) (s : State) (m : Model) :
  model (self s) = Some m ->
  exists m',
    model (self (snd (train epochs s))) = Some m'
    /\ length (outputs m') = length (outputs m)
    /\ output_names m' = output_names m
    /\ output_shapes m' = output_shapes m
    /\ output_heads m' = output_heads m
    /\ option_map loss (compiled m') = option_map loss (compiled m)
    /\ option_map metrics (compiled m') = option_map metrics (compiled m).
Proof.
  intros Hm.
  destruct (train_runs epochs s) as (d & g & _ & Hrun). cbv zeta in Hrun.
  rewrite (model_in_effect_some s m Hm) in Hrun. rewrite Hrun.
  destruct (compiled m) eqn:Hcfg; cbn [snd self model with_model in_state].
  - eexists. split; [reflexivity|].
    destruct (fitted_model_architecture (train_fit_call m d epochs))
      as (H1 & H2 & H3 & H4).
    cbn [fit_model train_fit_call] in *. rewrite H4, Hcfg.
    split; [|now repeat split].
    cbn [fitted_model outputs fit_model train_fit_call]. apply length_map.
  - exists m. now rewrite Hcfg.
Qed.

(** ** Labels *)

Lemma one_hot_length (n c : nat) : length (one_hot n c) = n.
Proof. unfold one_hot. now rewrite length_map, length_seq. Qed.

Lemma one_hot_from_sum (c : nat) : forall n k,
  (fold_right Qplus 0
     (map (fun i => if Nat.eqb i c then 1 else 0) (seq k n))
   == if (Nat.leb k c && Nat.ltb c (k + n))%bool then 1 else 0)%Q.
Proof.
  induction n as [|n IH]; intros k; cbn [seq map fold_right].
  - replace (Nat.leb k c && Nat.ltb c (k + 0))%bool with false; [reflexivity|].
    symmetry. apply andb_false_iff.
    destruct (Nat.leb_spec k c); [right|now left].
    apply Nat.ltb_ge. lia.
  - rewrite IH.
    destruct (Nat.eqb_spec k c) as [->|Hne].
    + replace (Nat.leb (S c) c) with false
        by (symmetry; apply Nat.leb_gt; lia).
      rewrite Nat.leb_refl.
      replace (Nat.ltb c (c + S n)) with true
        by (symmetry; apply Nat.ltb_lt; lia).
      reflexivity.
    + replace (Nat.ltb c (S k + n)) with (Nat.ltb c (k + S n))
        by (f_equal; lia).
      replace (Nat.leb (S k) c) with (Nat.leb k c).
      * cbn [andb]. destruct (Nat.leb k c && Nat.ltb c (k + S n))%bool;
          reflexivity.
      * destruct (Nat.leb_spec k c), (Nat.leb_spec (S k) c); try reflexivity;
          lia.
Qed.

(** A one-hot row over [n] classes has [n] entries that add up to 1. *)
Lemma one_hot_sum (n c : nat) :
  c < n -> (fold_right Qplus 0 (one_hot n c) == 1)%Q.
Proof.
  intros Hc. unfold one_hot. rewrite one_hot_from_sum.
  replace (Nat.ltb c (0 + n)) with true by (symmetry; apply Nat.ltb_lt; lia).
  reflexivity.
Qed.

Lemma to_categorical_rows (labels : list nat) (num_classes : nat) :
  Forall (fun c => c < num_classes) labels ->
  to_categorical labels num_classes = Ok (map (one_hot num_classes) labels).
Proof.
  induction 1 as [|c rest Hc _ IH]; [reflexivity|].
  cbn [to_categorical map]. apply Nat.ltb_lt in Hc. now rewrite Hc, IH.
Qed.

Lemma rand_column_row (g : RNG) :
  length (fst (let '(q, g') := rand_float g in ([q], g'))) = 1.
Proof. now destruct (rand_float g). Qed.

(** An emotion label row: the one-hot encoding of one of the 5 classes. *)
Definition class_row (row : list Q) : Prop :=
  exists c, c < 5 /\ row = one_hot 5 c.

Lemma class_row_shape (row : list Q) :
  class_row row ->
  length row = 5 /\ (fold_right Qplus 0 row == 1)%Q
  /\ Forall (fun q => q = 0%Q \/ q = 1%Q) row.
Proof.
  intros (c & Hc & ->). split; [apply one_hot_length|].
  split; [now apply one_hot_sum|].
  unfold one_hot. apply Forall_map, List.Forall_forall. intros i _.
  destruct (Nat.eqb i c); auto.
Qed.

Lemma prepare_data_rows (s : State) :
  exists X y_emotion y_fatigue,
    Forall class_row y_emotion
    /\ Forall (fun row => length row = 1) y_fatigue
    /\ fst (prepare_data s) =
         Ok ((take 800 X, [("emotion", take 800 y_emotion);
                           ("fatigue", take 800 y_fatigue)]),
             (drop 800 X, [("emotion", drop 800 y_emotion);
                           ("fatigue", drop 800 y_fatigue)])).
Proof.
  unfold prepare_data.
  destruct (draws_returns rand_image (fun _ => True) (fun _ => I)
              num_samples (world s)) as (X & g1 & HX & HlenX & _).
  destruct (draws_returns
              (fun g => let '(k, g') := rand_bits g in (0 + k mod (5 - 0), g'))
              (fun c => c < 5) randint_below
              num_samples (with_rng g1 (world s)))
    as (emotions & g2 & Hemo & HlenE & Hlt).
  destruct (draws_returns
              (fun g => let '(q, g') := rand_float g in ([q], g'))
              (fun row => length row = 1) rand_column_row
              num_samples (with_rng g2 (with_rng g1 (world s))))
    as (yf & g3 & Hyf & HlenF & Hrows).
  exists X, (map (one_hot 5) emotions), yf.
  split.
  { apply Forall_map. eapply Forall_impl; [exact Hlt|].
    intros c Hc. now exists c. }
  split; [exact Hrows|].
  erewrite bind_ok by (apply in_world_eq; exact HX).
  erewrite bind_ok by (apply in_world_eq; exact Hemo).
  erewrite bind_ok
    by (unfold from_result; rewrite (to_categorical_rows _ _ Hlt); reflexivity).
  erewrite bind_ok by (apply in_world_eq; exact Hyf).
  rewrite split_idx_is_800. cbn [from_option].
  erewrite bind_ok by reflexivity.
  unfold num_samples in *.
  rewrite !slice_to_800, !slice_from_800 by (rewrite ?length_map; lia).
  reflexivity.
Qed.

(** The labels [prepare_data] returns: in the training and in the
    validation part alike, every emotion row is the one-hot encoding of a
    class in 0..4 (5 entries, each 0 or 1, adding up to 1) and every
    fatigue row has one entry; [to_categorical] is never given a label out
    of range. *)
Theorem prepare_data_labels (s : State) :
  exists X_train X_val e_train f_train e_val f_val,
    fst (prepare_data s)
    = Ok ((X_train, [("emotion", e_train); ("fatigue", f_train)]),
          (X_val, [("emotion", e_val); ("fatigue", f_val)]))
    /\ Forall (fun row => class_row row /\ length row = 5
                          /\ (fold_right Qplus 0 row == 1)%Q
                          /\ Forall (fun q => q = 0%Q \/ q = 1%Q) row)
              (e_train ++ e_val)
    /\ Forall (fun row => length row = 1) (f_train ++ f_val).
Proof.
  destruct (prepare_data_rows s) as (X & ye & yf & Hye & Hyf & Hrun).
  exists (take 800 X), (drop 800 X), (take 800 ye), (take 800 yf),
         (drop 800 ye), (drop 800 yf).
  split; [exact Hrun|]. rewrite !take_drop. split; [|exact Hyf].
  eapply Forall_impl; [exact Hye|].
  intros row Hrow. split; [exact Hrow | now apply class_row_shape].
Qed.

(** ** What [create_model] compiles *)

(** The dense layers of a model, in the order of its outputs. *)
Definition dense_trainable (m : Model) : list bool :=
  omap (fun l => match l with
                 | Dense _ _ _ is_trainable _ => Some is_trainable
                 | _ => None
                 end) (model_layers m).

(** The model [create_model] stores is compiled with one loss and one
    metric list per output, keyed by exactly the names of its outputs, and
    all the dense layers it put on top of the frozen backbone are
    trainable. *)
Theorem create_model_compiled (s : State) :
  exists m cfg,
    model (self (snd (create_model s))) = Some m
    /\ compiled m = Some cfg
    /\ map (fun kv => Some (fst kv)) (loss cfg) = output_names m
    /\ map (fun kv => Some (fst kv)) (metrics cfg) = output_names m
    /\ dense_trainable m <> []
    /\ Forall (fun b => b = true) (dense_trainable m).
Proof.
  rewrite create_model_eq. eexists _, _.
  split; [reflexivity|]. split; [reflexivity|].
  split; [reflexivity|]. split; [reflexivity|].
  split; [discriminate|]. repeat constructor.
Qed.

(** ** The whole script *)

(** The world with its file system replaced. *)
Definition with_disk (f : FileSystem) (w : World) : World :=
  {| fs := f; np_random := np_random w; wall_clock := wall_clock w;
     clock_reads := clock_reads w; trace := trace w |}.

(** The file system after a successful write. *)
Definition written (path content : string) (f : FileSystem) : FileSystem :=
  {| dirs := dirs f; files := <[path := content]> (files f) |}.

(** The file system after a successful [makedirs]. *)
Definition made (path : string) (f : FileSystem) : FileSystem :=
  {| dirs := dirs f ∪ list_to_set (ancestors path) ∪ {[path]};
     files := files f |}.

Lemma write_file_ok (f : FileSystem) (path content : string) :
  is_file f (parent path) = false ->
  is_dir f (parent path) = true ->
  is_dir f path = false ->
  write_file f path content = Ok (written path content f).
Proof. intros H1 H2 H3. unfold write_file. now rewrite H1, H2, H3. Qed.

Lemma is_file_written_ne (f : FileSystem) (path content p : string) :
  path <> p -> is_file (written path content f) p = is_file f p.
Proof.
  intros Hne. unfold is_file, written. cbn [files].
  now rewrite lookup_insert_ne.
Qed.

Lemma is_dir_written (f : FileSystem) (path content p : string) :
  is_dir (written path content f) p = is_dir f p.
Proof. reflexivity. Qed.

Lemma is_file_made (f : FileSystem) (path p : string) :
  is_file (made path f) p = is_file f p.
Proof. reflexivity. Qed.

Lemma is_dir_false (f : FileSystem) (p : string) :
  p <> "" -> p ∉ dirs f -> is_dir f p = false.
Proof.
  intros Hne Hnot. unfold is_dir.
  rewrite (bool_decide_eq_false_2 _ Hnot).
  apply String.eqb_neq in Hne. now rewrite Hne.
Qed.

Lemma emit_runs (t : Trainer) (w : World) (e : Event) :
  in_world (emit e) (in_state t w) = (Ok tt, in_state t (with_event e w)).
Proof. reflexivity. Qed.

(** Two worlds with the same five components are the same world. *)
Lemma world_ext (w w' : World) :
  fs w = fs w' -> np_random w = np_random w' ->
  wall_clock w = wall_clock w' -> clock_reads w = clock_reads w' ->
  trace w = trace w' -> w = w'.
Proof. destruct w, w'. cbn. now intros -> -> -> -> ->. Qed.

Lemma print_runs (t : Trainer) (w : World) (text : string) :
  in_world (print text) (in_state t w)
  = (Ok tt, in_state t (with_event (Print text) w)).
Proof. reflexivity. Qed.

Lemma optimize_for_edge_runs (t : Trainer) (w : World) (m : Model)
    (p : string) :
  model t = Some m ->
  output_path_of t = Ok p ->
  let path := path_join p "micromentor_edge.tflite" in
  let bytes := tflite_bytes {| conv_model := Some m;
                               optimizations := [OptimizeDEFAULT];
                               supported_types := [float16] |} m in
  is_file (fs w) (parent path) = false ->
  is_dir (fs w) (parent path) = true ->
  is_dir (fs w) path = false ->
  optimize_for_edge (in_state t w)
  = (Ok path,
     in_state t
       (with_event
          (PrintFixed2 "Optimized model size: "
             (inject_Z (Z.of_nat (String.length bytes))
              / inject_Z (1024 * 1024))%Q " MB")
          (with_disk (written path bytes (fs w)) w))).
Proof.
  destruct t as [cfg mo h]. cbn [model]. intros -> Hpath. cbv zeta.
  intros Hnofile Hdir Hnodir.
  unfold output_path_of in Hpath. cbn [config] in Hpath.
  cbv [optimize_for_edge mbind SE_bind mret SE_ret get_model config_item
       from_result convert from_keras_model set_optimizations
       set_supported_types conv_model optimizations supported_types
       in_world open_write with_fs emit in_state self world model config].
  destruct (getitem cfg "output_path") as [v|e']; [|discriminate].
  rewrite Hpath, (write_file_ok _ _ _ Hnofile Hdir Hnodir).
  reflexivity.
Qed.

Lemma save_model_runs (t : Trainer) (w : World) (m : Model) (p : string) :
  model t = Some m ->
  output_path_of t = Ok p ->
  let keras_path := path_join p "micromentor_model.h5" in
  let tfjs_path := path_join p "tfjs" in
  let pb_path := path_join tfjs_path "saved_model.pb" in
  let fs1 := written keras_path (h5_bytes m) (fs w) in
  let fs2 := made tfjs_path fs1 in
  write_file (fs w) keras_path (h5_bytes m) = Ok fs1 ->
  makedirs fs1 tfjs_path = Ok fs2 ->
  write_file fs2 pb_path (saved_model_pb m)
    = Ok (written pb_path (saved_model_pb m) fs2) ->
  save_model (in_state t w)
  = (Ok tt,
     in_state t
       (with_event (Print ("TensorFlow.js model saved to " +:+ tfjs_path))
          (with_event (Print ("Model saved to " +:+ keras_path))
             (with_disk (written pb_path (saved_model_pb m) fs2) w)))).
Proof.
  destruct t as [cfg mo h]. cbn [model]. intros -> Hpath. cbv zeta.
  intros Hw1 Hmk Hw2.
  unfold output_path_of in Hpath. cbn [config] in Hpath.
  destruct (getitem cfg "output_path") as [v|e'] eqn:Hget; [|discriminate].
  cbv [save_model mbind SE_bind mret SE_ret self_model get_model config_item
       from_result from_option in_world open_write with_fs saved_model_save
       os_makedirs print emit in_state self world model config].
  rewrite Hget, Hpath, Hw1. cbn [fs config self]. rewrite ?Hget, ?Hpath.
  rewrite Hmk. cbn [fs]. rewrite Hw2. reflexivity.
Qed.

Lemma edge_path : path_join "models" "micromentor_edge.tflite"
                  = "models/micromentor_edge.tflite".
Proof. vm_compute. reflexivity. Qed.

Lemma keras_path : path_join "models" "micromentor_model.h5"
                   = "models/micromentor_model.h5".
Proof. vm_compute. reflexivity. Qed.

Lemma tfjs_path : path_join "models" "tfjs" = "models/tfjs".
Proof. vm_compute. reflexivity. Qed.

Lemma pb_path : path_join "models/tfjs" "saved_model.pb"
                = "models/tfjs/saved_model.pb".
Proof. vm_compute. reflexivity. Qed.

Lemma parent_edge_path : parent "models/micromentor_edge.tflite" = "models".
Proof. vm_compute. reflexivity. Qed.

Lemma parent_keras_path : parent "models/micromentor_model.h5" = "models".
Proof. vm_compute. reflexivity. Qed.

Lemma parent_pb_path : parent "models/tfjs/saved_model.pb" = "models/tfjs".
Proof. vm_compute. reflexivity. Qed.

(** Two string literals differ. *)
Ltac strings_differ :=
  let H := fresh in
  intros H; apply String.eqb_eq in H; vm_compute in H; discriminate H.

(** The trainer [main] constructs. *)
Definition main_trainer : Trainer :=
  {| config := main_config; model := None; history := None |}.

(** The world [main_setup] leaves. *)
Definition after_setup (w : World) : World :=
  with_disk
    (written "config/training_config.json" (Json.dumps main_config)
       (made "models/tfjs" (fs w))) w.

Lemma main_setup_runs (w : World) :
  "config" ∈ dirs (fs w) ->
  files (fs w) !! "models" = None ->
  files (fs w) !! "models/tfjs" = None ->
  files (fs w) !! "config" = None ->
  "config/training_config.json" ∉ dirs (fs w) ->
  main_setup w = (Ok main_trainer, after_setup w).
Proof.
  intros Hconfig Hmodels Htfjs Hnofile Hnodir.
  assert (Hmk : makedirs (fs w) "models/tfjs" = Ok (made "models/tfjs" (fs w))).
  { unfold makedirs. rewrite ancestors_models_tfjs. cbn [existsb].
    rewrite (is_file_none _ _ Hmodels), (is_file_none _ _ Htfjs).
    reflexivity. }
  assert (Hwr : write_file (made "models/tfjs" (fs w))
                  "config/training_config.json" (Json.dumps main_config)
                = Ok (written "config/training_config.json"
                        (Json.dumps main_config) (made "models/tfjs" (fs w)))).
  { apply write_file_ok; rewrite ?parent_config_path.
    - rewrite is_file_made. now apply is_file_none.
    - apply is_dir_elem. cbn [dirs made]. set_solver.
    - apply is_dir_false; [strings_differ|].
      cbn [dirs made]. rewrite ancestors_models_tfjs.
      intros Hin. set_unfold in Hin.
      destruct Hin as [[Hin|[Hin|[]]]|Hin];
        [exact (Hnodir Hin) | discriminate Hin | discriminate Hin]. }
  cbv [main_setup mbind SE_bind os_makedirs open_write with_fs __init__
       open_read from_result mret SE_ret].
  rewrite Hmk. cbn [fs]. rewrite Hwr. cbn [fs].
  unfold read_file, written. cbn [files].
  rewrite lookup_insert_eq, loads_dumps_main_config. reflexivity.
Qed.

(** Run where the directory [config] does not exist, [main] raises
    [FileNotFoundError] when it opens the configuration file for writing:
    no trainer is built and nothing is printed, but the directories
    [models] and [models/tfjs] it created first remain. *)
Theorem main_without_config_directory (w : World) :
  "config" ∉ dirs (fs w) ->
  files (fs w) !! "models" = None ->
  files (fs w) !! "models/tfjs" = None ->
  files (fs w) !! "config" = None ->
  fst (main w) = Raise (FileNotFoundError "config/training_config.json")
  /\ (forall d, d ∈ dirs (fs (snd (main w)))
                <-> d ∈ dirs (fs w) \/ d = "models" \/ d = "models/tfjs")
  /\ files (fs (snd (main w))) = files (fs w)
  /\ trace (snd (main w)) = trace w.
Proof.
  intros Hconfig Hmodels Htfjs Hnofile.
  assert (Hmk : makedirs (fs w) "models/tfjs" = Ok (made "models/tfjs" (fs w))).
  { unfold makedirs. rewrite ancestors_models_tfjs. cbn [existsb].
    rewrite (is_file_none _ _ Hmodels), (is_file_none _ _ Htfjs).
    reflexivity. }
  assert (Hwr : write_file (made "models/tfjs" (fs w))
                  "config/training_config.json" (Json.dumps main_config)
                = Raise (FileNotFoundError "config/training_config.json")).
  { unfold write_file. rewrite parent_config_path, is_file_made.
    rewrite (is_file_none _ _ Hnofile).
    rewrite is_dir_false; [reflexivity | strings_differ |].
    cbn [dirs made]. rewrite ancestors_models_tfjs.
    intros Hin. set_unfold in Hin.
    destruct Hin as [[Hin|[Hin|[]]]|Hin];
      [exact (Hconfig Hin) | discriminate Hin | discriminate Hin]. }
  cbv [main main_setup mbind SE_bind os_makedirs open_write with_fs].
  rewrite Hmk. cbn [fs]. rewrite Hwr. cbn [fst snd fs dirs files trace made].
  split; [reflexivity|]. split; [|split; reflexivity].
  intros d. rewrite ancestors_models_tfjs. set_unfold. tauto.
Qed.

(** The converter [optimize_for_edge] builds for a model. *)
Definition edge_converter (m : Model) : TFLiteConverter :=
  {| conv_model := Some m; optimizations := [OptimizeDEFAULT];
     supported_types := [float16] |}.

(** What a complete run of [main_steps] leaves in the trace, for the call
    [c] it made to [fit] and the test input [x] of its benchmark. *)
Definition main_trace (w : World) (c : FitCall) (x : list Image)
  : list Event :=
  let trained := fitted_model c in
  let bytes := tflite_bytes (edge_converter trained) trained in
  let measured := durations (wall_clock w) (clock_reads w) 100 in
  [Print "Creating MicroMentor model...";
   Print "\nModel Summary:";
   Summary (fit_model c);
   Print "\nTraining model...";
   Fit c;
   Print "\nOptimizing for edge deployment...";
   PrintFixed2 "Optimized model size: "
     (inject_Z (Z.of_nat (String.length bytes)) / inject_Z (1024 * 1024))%Q
     " MB";
   Print "\nSaving models...";
   Print "Model saved to models/micromentor_model.h5";
   Print "TensorFlow.js model saved to models/tfjs";
   Print "\nEvaluating latency..."]
  ++ repeat (Predict trained x) 10
  ++ measurement_trace (wall_clock w) trained x (clock_reads w) 100
  ++ [PrintFixed2 "Average inference latency: " (np_mean measured) " ms";
      Print "\n✅ Training complete!";
      Print "Models saved in models directory"].

(** The files a complete run of [main_steps] writes, among those the
    model represents. *)
Definition main_files (c : FitCall) (f : FileSystem) : FileSystem :=
  let trained := fitted_model c in
  written "models/tfjs/saved_model.pb" (saved_model_pb trained)
    (made "models/tfjs"
       (written "models/micromentor_model.h5" (h5_bytes trained)
          (written "models/micromentor_edge.tflite"
             (tflite_bytes (edge_converter trained) trained) f))).

Lemma main_steps_runs (w : World) :
  "models" ∈ dirs (fs w) ->
  files (fs w) !! "models" = None ->
  files (fs w) !! "models/tfjs" = None ->
  "models/micromentor_edge.tflite" ∉ dirs (fs w) ->
  "models/micromentor_model.h5" ∉ dirs (fs w) ->
  "models/tfjs/saved_model.pb" ∉ dirs (fs w) ->
  exists c x g,
    fit_model c = assembled_model
    /\ fit_epochs c = 5%Z
    /\ fit_batch_size c = 32
    /\ fit_callbacks c = callbacks
    /\ main_steps (in_state main_trainer w)
       = (Ok tt,
          in_state {| config := main_config;
                      model := Some (fitted_model c);
                      history := Some (fit_history c) |}
            {| fs := main_files c (fs w);
               np_random := g;
               wall_clock := wall_clock w;
               clock_reads := clock_reads w + 200;
               trace := trace w ++ main_trace w c x |}).
Proof.
  intros Hdir Hmodels Htfjs Hedge Hkeras Hpb.
  set (w1 := with_event (Print "Creating MicroMentor model...") w).
  set (w2 := with_event (Print "\nModel Summary:") w1).
  set (w3 := with_event (Summary assembled_model) w2).
  set (w4 := with_event (Print "\nTraining model...") w3).
  set (t1 := {| config := main_config; model := Some assembled_model;
                history := None |}).
  destruct (train_runs 5 (in_state t1 w4)) as (d & g & _ & Htrain).
  cbv zeta in Htrain.
  rewrite (model_in_effect_some (in_state t1 w4) assembled_model eq_refl)
    in Htrain.
  cbn [compiled assembled_model] in Htrain.
  set (c := train_fit_call assembled_model d 5) in *.
  exists c, [fst (rand_image g)], (snd (rand_image g)).
  split; [reflexivity|]. split; [reflexivity|].
  split; [reflexivity|]. split; [reflexivity|].
  unfold main_steps. cbv zeta.
  rewrite (bind_ok (S := State) _ _ _ _ _ (print_runs _ _ _)). fold w1.
  rewrite (bind_ok (S := State) _ _ _ _ _ (create_model_eq _)).
  change (with_model assembled_model (in_state main_trainer w1))
    with (in_state t1 w1).
  rewrite (bind_ok (S := State) _ _ _ _ _ (print_runs _ _ _)). fold w2.
  erewrite (bind_ok (S := State)) with (a := assembled_model) by reflexivity.
  rewrite (bind_ok (S := State) _ _ _ _ _ (emit_runs _ _ _)). fold w3.
  rewrite (bind_ok (S := State) _ _ _ _ _ (print_runs _ _ _)). fold w4.
  erewrite (bind_ok (S := State)) with (a := JInt 5) by reflexivity.
  erewrite (bind_ok (S := State)) with (a := 5%Z) by reflexivity.
  rewrite (bind_ok (S := State) _ _ _ _ _ Htrain).
  set (trained := fitted_model c).
  set (t2 := {| config := main_config; model := Some trained;
                history := Some (fit_history c) |}).
  set (w5 := with_event (Fit c) (with_rng g w4)).
  change (Build_State _ _) with (in_state t2 w5).
  rewrite (bind_ok (S := State) _ _ _ _ _ (print_runs _ _ _)).
  set (w6 := with_event (Print "\nOptimizing for edge deployment...") w5).
  (* the lite export *)
  set (bytes := tflite_bytes (edge_converter trained) trained).
  set (fs1 := written "models/micromentor_edge.tflite" bytes (fs w)).
  pose proof (optimize_for_edge_runs t2 w6 trained "models" eq_refl eq_refl)
    as Hopt.
  cbv zeta in Hopt. rewrite edge_path, parent_edge_path in Hopt.
  specialize (Hopt (is_file_none (fs w) "models" Hmodels)
                   (is_dir_elem (fs w) "models" Hdir)
                   (is_dir_false (fs w) "models/micromentor_edge.tflite"
                      ltac:(strings_differ) Hedge)).
  rewrite (bind_ok (S := State) _ _ _ _ _ Hopt).
  fold (edge_converter trained). fold bytes.
  change (written "models/micromentor_edge.tflite" bytes (fs w6)) with fs1.
  set (w7 := with_event _ (with_disk fs1 w6)).
  rewrite (bind_ok (S := State) _ _ _ _ _ (print_runs _ _ _)).
  set (w8 := with_event (Print "\nSaving models...") w7).
  (* the two saved models *)
  set (fs2 := written "models/micromentor_model.h5" (h5_bytes trained) fs1).
  set (fs3 := made "models/tfjs" fs2).
  set (fs4 := written "models/tfjs/saved_model.pb" (saved_model_pb trained) fs3).
  assert (Hnofile1 : is_file fs1 "models" = false).
  { unfold fs1. rewrite is_file_written_ne by strings_differ.
    now apply is_file_none. }
  assert (Hnofile2 : is_file fs2 "models" = false).
  { unfold fs2. now rewrite is_file_written_ne by strings_differ. }
  assert (Hnotfjs : is_file fs2 "models/tfjs" = false).
  { unfold fs2, fs1. rewrite !is_file_written_ne by strings_differ.
    now apply is_file_none. }
  pose proof (save_model_runs t2 w8 trained "models" eq_refl eq_refl)
    as Hsave.
  cbv zeta in Hsave. rewrite keras_path, tfjs_path, pb_path in Hsave.
  change (fs w8) with fs1 in Hsave. fold fs2 fs3 fs4 in Hsave.
  assert (Hw1 : write_file fs1 "models/micromentor_model.h5"
                  (h5_bytes trained) = Ok fs2).
  { apply write_file_ok; rewrite ?parent_keras_path.
    - exact Hnofile1.
    - now apply is_dir_elem.
    - now apply is_dir_false; [strings_differ|]. }
  assert (Hmk : makedirs fs2 "models/tfjs" = Ok fs3).
  { unfold makedirs. rewrite ancestors_models_tfjs. cbn [existsb].
    now rewrite Hnofile2, Hnotfjs. }
  assert (Hw2 : write_file fs3 "models/tfjs/saved_model.pb"
                  (saved_model_pb trained) = Ok fs4).
  { apply write_file_ok; rewrite ?parent_pb_path.
    - unfold fs3. now rewrite is_file_made.
    - apply is_dir_elem. unfold fs3. cbn [dirs made]. set_solver.
    - apply is_dir_false; [strings_differ|].
      unfold fs3. cbn [dirs made fs2 fs1 written].
      rewrite ancestors_models_tfjs.
      intros Hin. set_unfold in Hin.
      destruct Hin as [[Hin|[Hin|[]]]|Hin];
        [exact (Hpb Hin) | discriminate Hin | discriminate Hin]. }
  specialize (Hsave Hw1 Hmk Hw2).
  rewrite (bind_ok (S := State) _ _ _ _ _ Hsave).
  set (w9 := with_event _ (with_event _ (with_disk fs4 w8))).
  rewrite (bind_ok (S := State) _ _ _ _ _ (print_runs _ _ _)).
  set (w10 := with_event (Print "\nEvaluating latency...") w9).
  (* the benchmark *)
  pose proof (evaluate_latency_runs main_config trained
                (Some (fit_history c)) w10) as Hlat.
  cbv zeta in Hlat. fold t2 in Hlat.
  rewrite (bind_ok (S := State) _ _ _ _ _ Hlat).
  rewrite (bind_ok (S := State) _ _ _ _ _ (print_runs _ _ _)).
  erewrite (bind_ok (S := State)) with (a := JStr "models") by reflexivity.
  erewrite (bind_ok (S := State)) with (a := "models") by reflexivity.
  rewrite print_runs.
  f_equal. f_equal.
  subst w10 w9 w8 w7 w6 w5 w4 w3 w2 w1.
  apply world_ext.
  - cbn [fs with_event advance with_rng with_disk]. reflexivity.
  - cbn [np_random with_event advance with_rng with_disk]. reflexivity.
  - cbn [wall_clock with_event advance with_rng with_disk]. reflexivity.
  - cbn [clock_reads with_event advance with_rng with_disk]. reflexivity.
  - cbn [trace np_random wall_clock clock_reads with_event advance with_rng
         with_disk].
    unfold main_trace. fold trained. fold bytes.
    cbn [app fit_model c train_fit_call]. rewrite <- !app_assoc.
    reflexivity.
Qed.

(** Run where the directory [config] exists and no file or directory
    stands in the way of the paths it uses, [main] returns.  It calls
    [fit] once, on the model [create_model] assembles, for the 5 epochs of
    its own configuration literal and a batch size of 32.  Afterwards the
    configuration file holds the dump of the configuration literal, and
    the lite file, the HDF5 file and [saved_model.pb] are there and are
    all serialisations of the model that call fitted, in the directories
    [models] and [models/tfjs].  Nothing is said of any other file: the
    framework writes further ones of its own (the companions of
    [saved_model.pb], the cached backbone weights).  The trace is, in
    order, the progress lines, the summary, the call to [fit], the size
    line, the two save lines, the 110 inferences with the 200 clock
    readings of the benchmark, the latency line and the closing lines. *)
Theorem main_runs_to_completion (w : World) :
  "config" ∈ dirs (fs w) ->
  files (fs w) !! "models" = None ->
  files (fs w) !! "models/tfjs" = None ->
  files (fs w) !! "config" = None ->
  "config/training_config.json" ∉ dirs (fs w) ->
  "models/micromentor_edge.tflite" ∉ dirs (fs w) ->
  "models/micromentor_model.h5" ∉ dirs (fs w) ->
  "models/tfjs/saved_model.pb" ∉ dirs (fs w) ->
  exists c x,
    fst (create_model (in_state main_trainer w)) = Ok (fit_model c)
    /\ fit_epochs c = 5%Z
    /\ fit_batch_size c = 32
    /\ fit_callbacks c = callbacks
    /\ fst (main w) = Ok tt
    /\ files (fs (snd (main w))) !! "config/training_config.json"
       = Some (Json.dumps main_config)
    /\ files (fs (snd (main w))) !! "models/micromentor_edge.tflite"
       = Some (tflite_bytes (edge_converter (fitted_model c)) (fitted_model c))
    /\ files (fs (snd (main w))) !! "models/micromentor_model.h5"
       = Some (h5_bytes (fitted_model c))
    /\ files (fs (snd (main w))) !! "models/tfjs/saved_model.pb"
       = Some (saved_model_pb (fitted_model c))
    /\ "models" ∈ dirs (fs (snd (main w)))
    /\ "models/tfjs" ∈ dirs (fs (snd (main w)))
    /\ trace (snd (main w)) = trace w ++ main_trace w c x
    /\ clock_reads (snd (main w)) = clock_reads w + 200.
Proof.
  intros Hconfig Hmodels Htfjs Hnofile Hcfgdir Hedge Hkeras Hpb.
  assert (Hnew : forall p, p ∉ dirs (fs w) -> p <> "models" ->
                   p <> "models/tfjs" -> p ∉ dirs (fs (after_setup w))).
  { intros p Hp H1 H2. cbn [after_setup with_disk fs written made dirs].
    rewrite ancestors_models_tfjs. set_unfold. tauto. }
  destruct (main_steps_runs (after_setup w)) as (c & x & g & Hm & He & Hb & Hcb & Hrun).
  - cbn [after_setup with_disk fs written made dirs].
    rewrite ancestors_models_tfjs. set_solver.
  - cbn [after_setup with_disk fs written made files].
    now rewrite lookup_insert_ne by strings_differ.
  - cbn [after_setup with_disk fs written made files].
    now rewrite lookup_insert_ne by strings_differ.
  - apply Hnew; [exact Hedge | strings_differ | strings_differ].
  - apply Hnew; [exact Hkeras | strings_differ | strings_differ].
  - apply Hnew; [exact Hpb | strings_differ | strings_differ].
  - exists c, x. rewrite create_model_eq, Hm.
    split; [reflexivity|]. split; [exact He|]. split; [exact Hb|].
    split; [exact Hcb|].
    unfold main.
    rewrite (bind_ok (S := World) _ _ _ _ _
               (main_setup_runs w Hconfig Hmodels Htfjs Hnofile Hcfgdir)).
    unfold in_state in Hrun. unfold mbind, SE_bind, on_trainer.
    rewrite Hrun.
    cbn [fst snd world in_state fs files dirs trace clock_reads mret SE_ret
         main_files written made after_setup with_disk wall_clock].
    split; [reflexivity|].
    split.
    { rewrite !lookup_insert_ne by strings_differ. apply lookup_insert_eq. }
    split.
    { rewrite !lookup_insert_ne by strings_differ. apply lookup_insert_eq. }
    split.
    { rewrite !lookup_insert_ne by strings_differ. apply lookup_insert_eq. }
    split; [apply lookup_insert_eq|].
    split; [rewrite ancestors_models_tfjs; set_solver|].
    split; [rewrite ancestors_models_tfjs; set_solver|].
    split; reflexivity.
Qed.

End Pipeline.


(* ===================================================================== *)
(** * A small concrete framework, and the theorems at concrete inputs *)
(* ===================================================================== *)

Module Demo.

(** Weights, samples and generator states are numbers; a history is the
    number of epochs asked for. *)
Definition backbone : list (string * list nat) :=
  [("Conv1", [1]); ("bn_Conv1", [2; 3]); ("out_relu", [])].

Definition glorot (fan_in units : nat) : list nat := [fan_in; units].

Definition next_image (g : nat) : nat * nat := (g, S g).

Definition next_float (g : nat) : Q * nat := (1 # 2, S g).

Definition next_bits (g : nat) : nat * nat := (g, S g).

Definition fitted_dense (c : FitCall nat nat) (l : Layer nat) : list nat :=
  [Z.to_nat (fit_epochs nat nat c)].

Definition fitted_base (c : FitCall nat nat) (l : BaseLayer nat)
  : list nat :=
  [Z.to_nat (fit_epochs nat nat c)].

Definition fit_history (c : FitCall nat nat) : Z := fit_epochs nat nat c.

Definition tflite_bytes (c : TFLiteConverter nat) (m : Model nat) : string :=
  "TFL3".

Definition h5_bytes (m : Model nat) : string := "HDF".

Definition saved_model_pb (m : Model nat) : string := "PB".

(** A disk on which only the directory [config] exists. *)
Definition disk : FileSystem := {| dirs := {["config"]}; files := ∅ |}.

(** A clock that moves forward by one second per reading, and one that is
    set back by one second during every measurement. *)
Definition steady_clock (i : nat) : Q := inject_Z (Z.of_nat i).

Definition stepped_back_clock (i : nat) : Q :=
  if Nat.even i then 1%Q else 0%Q.

Definition world_at (clock : nat -> Q) : World nat nat nat :=
  {| fs := disk; np_random := 0; wall_clock := clock; clock_reads := 0;
     trace := [] |}.

(** A trainer just constructed, and one whose model has been assembled. *)
Definition fresh (cfg : JValue) (clock : nat -> Q) : State nat nat Z nat :=
  {| self := {| config := cfg; model := None; history := None |};
     world := world_at clock |}.

Definition assembled (cfg : JValue) (clock : nat -> Q)
  : State nat nat Z nat :=
  snd (create_model nat nat Z nat backbone glorot (fresh cfg clock)).

Definition other_config : JValue :=
  JObj [("output_path", JStr "models"); ("epochs", JInt 50);
        ("batch_size", JInt 8)].

End Demo.

(** [train_without_model] on a trainer just constructed. *)
Lemma train_without_model_witness :
  model nat Z (self nat nat Z nat (Demo.fresh main_config Demo.steady_clock))
  = None
  /\ exists h,
       fst (train nat nat Z nat Demo.backbone Demo.glorot Demo.next_image
              Demo.next_float Demo.next_bits Demo.fitted_dense
              Demo.fitted_base Demo.fit_history 5
              (Demo.fresh main_config Demo.steady_clock)) = Ok h.
Proof.
  split; [reflexivity|].
  destruct (train_without_model nat nat Z nat Demo.backbone Demo.glorot
              Demo.next_image Demo.next_float Demo.next_bits
              Demo.fitted_dense Demo.fitted_base Demo.fit_history 5
              (Demo.fresh main_config Demo.steady_clock) eq_refl)
    as (h & _ & _ & _ & Hret & _).
  exists h. exact Hret.
Defined.

(** [evaluate_latency_mean] on an assembled trainer under the steady
    clock. *)
Lemma evaluate_latency_mean_witness :
  model nat Z (self nat nat Z nat (Demo.assembled main_config Demo.steady_clock))
  = Some (assembled_model nat Demo.backbone Demo.glorot)
  /\ (forall i, i < 100 ->
        Qle (Demo.steady_clock (0 + 2 * i)) (Demo.steady_clock (0 + 2 * i + 1)))
  /\ fst (evaluate_latency nat nat Z nat Demo.next_image
            (Demo.assembled main_config Demo.steady_clock))
     = Ok (np_mean (durations Demo.steady_clock 0 100))
  /\ (0 <= np_mean (durations Demo.steady_clock 0 100))%Q.
Proof.
  assert (Hmono : forall i, i < 100 ->
            Qle (Demo.steady_clock (0 + 2 * i))
                (Demo.steady_clock (0 + 2 * i + 1))).
  { intros i _. unfold Demo.steady_clock. rewrite <- Zle_Qle. lia. }
  split; [reflexivity|]. split; [exact Hmono|].
  destruct (evaluate_latency_mean nat nat Z nat Demo.next_image
              (Demo.assembled main_config Demo.steady_clock)
              (assembled_model nat Demo.backbone Demo.glorot) eq_refl)
    as (Hret & _ & _ & _ & _ & Hnonneg).
  split; [exact Hret | exact (Hnonneg Hmono)].
Defined.

(** C5, as stated, fails when the clock is set back while the benchmark
    runs: with a model stored and a clock that reads one second less after
    each measured inference than before it, every measured duration is
    -1000 ms and so is the average [evaluate_latency] returns. *)
Lemma evaluate_latency_negative_average :
  model nat Z
    (self nat nat Z nat (Demo.assembled main_config Demo.stepped_back_clock))
  = Some (assembled_model nat Demo.backbone Demo.glorot)
  /\ exists avg,
       fst (evaluate_latency nat nat Z nat Demo.next_image
              (Demo.assembled main_config Demo.stepped_back_clock)) = Ok avg
       /\ (avg == - (1000))%Q
       /\ (avg < 0)%Q.
Proof.
  split; [reflexivity|].
  eexists. split; [vm_compute; reflexivity|].
  split; vm_compute; reflexivity.
Qed.

(** [main_config_round_trip] on the disk that holds only [config]. *)
Lemma main_config_round_trip_witness :
  "config" ∈ dirs (fs nat nat nat (Demo.world_at Demo.steady_clock))
  /\ exists t,
       fst (main_setup nat nat Z nat (Demo.world_at Demo.steady_clock)) = Ok t
       /\ config nat Z t = main_config.
Proof.
  assert (Hdir : "config" ∈ dirs (fs nat nat nat (Demo.world_at Demo.steady_clock))).
  { cbn. apply elem_of_singleton. reflexivity. }
  split; [exact Hdir|].
  destruct (main_config_round_trip nat nat Z nat
              (Demo.world_at Demo.steady_clock) Hdir
              ltac:(reflexivity) ltac:(reflexivity) ltac:(reflexivity)
              ltac:(cbn; intros H; apply elem_of_singleton in H;
                    discriminate H))
    as (w1 & w2 & t & _ & _ & _ & _ & Hsetup & Hcfg & _).
  exists t. rewrite Hsetup. split; [reflexivity | exact Hcfg].
Defined.

(** [only_output_path_is_read] on two assembled trainers whose
    configurations differ in [epochs] and [batch_size]. *)
Lemma only_output_path_is_read_witness :
  agree_on_output_path nat nat Z nat
    (Demo.assembled main_config Demo.steady_clock)
    (Demo.assembled Demo.other_config Demo.steady_clock)
  /\ fst (run nat nat Z nat Demo.backbone Demo.glorot Demo.next_image
            Demo.next_float Demo.next_bits Demo.fitted_dense Demo.fitted_base
            Demo.fit_history Demo.tflite_bytes Demo.h5_bytes
            Demo.saved_model_pb (OpTrain 3)
            (Demo.assembled main_config Demo.steady_clock))
     = fst (run nat nat Z nat Demo.backbone Demo.glorot Demo.next_image
              Demo.next_float Demo.next_bits Demo.fitted_dense
              Demo.fitted_base Demo.fit_history Demo.tflite_bytes
              Demo.h5_bytes Demo.saved_model_pb (OpTrain 3)
              (Demo.assembled Demo.other_config Demo.steady_clock)).
Proof.
  assert (Hagree : agree_on_output_path nat nat Z nat
                     (Demo.assembled main_config Demo.steady_clock)
                     (Demo.assembled Demo.other_config Demo.steady_clock)).
  { repeat split; reflexivity. }
  split; [exact Hagree|].
  exact (proj1 (proj1 (only_output_path_is_read nat nat Z nat Demo.backbone
                         Demo.glorot Demo.next_image Demo.next_float
                         Demo.next_bits Demo.fitted_dense Demo.fitted_base
                         Demo.fit_history Demo.tflite_bytes Demo.h5_bytes
                         Demo.saved_model_pb (OpTrain 3) _ _ Hagree))).
Defined.

(** The whole of [main] on that disk: it returns, leaves the four files
    under [config] and [models], and has drawn 3000 + 1 samples and read
    the clock 200 times. *)
Example main_runs :
  let run := main nat nat Z nat Demo.backbone Demo.glorot Demo.next_image
               Demo.next_float Demo.next_bits Demo.fitted_dense
               Demo.fitted_base Demo.fit_history Demo.tflite_bytes
               Demo.h5_bytes Demo.saved_model_pb
               (Demo.world_at Demo.steady_clock) in
  fst run = Ok tt
  /\ map fst (map_to_list (files (fs nat nat nat (snd run))))
     = ["config/training_config.json"; "models/micromentor_model.h5";
        "models/micromentor_edge.tflite"; "models/tfjs/saved_model.pb"]
  /\ np_random nat nat nat (snd run) = 3001
  /\ clock_reads nat nat nat (snd run) = 200.
Proof. vm_compute. repeat split; reflexivity. Qed.

(* ===================================================================== *)
(** * Further concrete inputs *)
(* ===================================================================== *)

Module Scenario.

(** A disk with the output directory only, one where a regular file stands
    at [models/tfjs], and an empty one. *)
Definition output_disk : FileSystem := {| dirs := {["models"]}; files := ∅ |}.

Definition blocked_disk : FileSystem :=
  {| dirs := {["models"]}; files := {["models/tfjs" := "not a directory"]} |}.

Definition empty_disk : FileSystem := {| dirs := ∅; files := ∅ |}.

Definition world_on (f : FileSystem) : World nat nat nat :=
  {| fs := f; np_random := 0; wall_clock := Demo.steady_clock;
     clock_reads := 0; trace := [] |}.

(** A trainer on that disk, with or without the assembled model. *)
Definition unready (cfg : JValue) (f : FileSystem) : State nat nat Z nat :=
  {| self := {| config := cfg; model := None; history := None |};
     world := world_on f |}.

Definition ready (cfg : JValue) (f : FileSystem) : State nat nat Z nat :=
  {| self := {| config := cfg;
                model := Some (assembled_model nat Demo.backbone Demo.glorot);
                history := None |};
     world := world_on f |}.

(** A configuration without [output_path]. *)
Definition no_output_path : JValue := JObj [("epochs", JInt 5)].

End Scenario.

(** [trainer_stays_consistent] on a fresh trainer and three calls:
    training, the benchmark and a second assembly of the model. *)
Lemma trainer_stays_consistent_witness :
  consistent nat Z
    (self nat nat Z nat (Scenario.unready main_config Scenario.output_disk))
  /\ consistent nat Z
       (self nat nat Z nat
          (snd (run_all nat nat Z nat Demo.backbone Demo.glorot
                  Demo.next_image Demo.next_float Demo.next_bits
                  Demo.fitted_dense Demo.fitted_base Demo.fit_history
                  Demo.tflite_bytes Demo.h5_bytes Demo.saved_model_pb
                  [OpTrain 2; OpEvaluateLatency; OpCreateModel]
                  (Scenario.unready main_config Scenario.output_disk)))).
Proof.
  assert (H : consistent nat Z
                (self nat nat Z nat
                   (Scenario.unready main_config Scenario.output_disk))).
  { split; cbn; [discriminate | intros H; now elim H]. }
  split; [exact H|].
  exact (trainer_stays_consistent nat nat Z nat Demo.backbone Demo.glorot
           Demo.next_image Demo.next_float Demo.next_bits Demo.fitted_dense
           Demo.fitted_base Demo.fit_history Demo.tflite_bytes Demo.h5_bytes
           Demo.saved_model_pb _ _ H).
Defined.

(** [train_returns_after_any_calls] after a failed save and a benchmark. *)
Lemma train_returns_after_any_calls_witness :
  model nat Z
    (self nat nat Z nat (Scenario.unready main_config Scenario.output_disk))
  = None
  /\ history nat Z
       (self nat nat Z nat (Scenario.unready main_config Scenario.output_disk))
     = None
  /\ exists h,
       fst (train nat nat Z nat Demo.backbone Demo.glorot Demo.next_image
              Demo.next_float Demo.next_bits Demo.fitted_dense
              Demo.fitted_base Demo.fit_history 4
              (snd (run_all nat nat Z nat Demo.backbone Demo.glorot
                      Demo.next_image Demo.next_float Demo.next_bits
                      Demo.fitted_dense Demo.fitted_base Demo.fit_history
                      Demo.tflite_bytes Demo.h5_bytes Demo.saved_model_pb
                      [OpSaveModel; OpEvaluateLatency]
                      (Scenario.unready main_config Scenario.output_disk))))
       = Ok h.
Proof.
  split; [reflexivity|]. split; [reflexivity|].
  destruct (train_returns_after_any_calls nat nat Z nat Demo.backbone
              Demo.glorot Demo.next_image Demo.next_float Demo.next_bits
              Demo.fitted_dense Demo.fitted_base Demo.fit_history
              Demo.tflite_bytes Demo.h5_bytes Demo.saved_model_pb
              [OpSaveModel; OpEvaluateLatency] 4
              (Scenario.unready main_config Scenario.output_disk)
              eq_refl eq_refl) as (h & Hret & _).
  exists h. exact Hret.
Defined.

(** [evaluate_latency_without_model] on a fresh trainer. *)
Lemma evaluate_latency_without_model_witness :
  model nat Z
    (self nat nat Z nat (Scenario.unready main_config Scenario.output_disk))
  = None
  /\ fst (evaluate_latency nat nat Z nat Demo.next_image
            (Scenario.unready main_config Scenario.output_disk))
     = Raise (AttributeError "predict").
Proof.
  split; [reflexivity|].
  exact (proj1 (evaluate_latency_without_model nat nat Z nat Demo.next_image
                  (Scenario.unready main_config Scenario.output_disk)
                  eq_refl)).
Defined.

(** [unusable_output_path] on a configuration without the key. *)
Lemma unusable_output_path_witness :
  output_path_of nat Z
    (self nat nat Z nat
       (Scenario.ready Scenario.no_output_path Scenario.output_disk))
  = Raise (KeyError "output_path")
  /\ save_model nat nat Z nat Demo.h5_bytes Demo.saved_model_pb
       (Scenario.ready Scenario.no_output_path Scenario.output_disk)
     = (Raise (KeyError "output_path"),
        Scenario.ready Scenario.no_output_path Scenario.output_disk).
Proof.
  split; [reflexivity|].
  exact (proj1 (proj2 (unusable_output_path nat nat Z nat Demo.tflite_bytes
                         Demo.h5_bytes Demo.saved_model_pb
                         (Scenario.ready Scenario.no_output_path
                            Scenario.output_disk)
                         (KeyError "output_path") eq_refl))).
Defined.

(** [save_model_without_model] on a fresh trainer. *)
Lemma save_model_without_model_witness :
  model nat Z
    (self nat nat Z nat (Scenario.unready main_config Scenario.output_disk))
  = None
  /\ output_path_of nat Z
       (self nat nat Z nat (Scenario.unready main_config Scenario.output_disk))
     = Ok "models"
  /\ save_model nat nat Z nat Demo.h5_bytes Demo.saved_model_pb
       (Scenario.unready main_config Scenario.output_disk)
     = (Raise (AttributeError "save"),
        Scenario.unready main_config Scenario.output_disk).
Proof.
  split; [reflexivity|]. split; [reflexivity|].
  exact (save_model_without_model nat nat Z nat Demo.h5_bytes
           Demo.saved_model_pb
           (Scenario.unready main_config Scenario.output_disk) "models"
           eq_refl eq_refl).
Defined.

(** [optimize_for_edge_exports] on an assembled trainer and the output
    directory. *)
Lemma optimize_for_edge_exports_witness :
  model nat Z
    (self nat nat Z nat (Scenario.ready main_config Scenario.output_disk))
  = Some (assembled_model nat Demo.backbone Demo.glorot)
  /\ output_path_of nat Z
       (self nat nat Z nat (Scenario.ready main_config Scenario.output_disk))
     = Ok "models"
  /\ is_dir Scenario.output_disk
       (parent (path_join "models" "micromentor_edge.tflite")) = true
  /\ fst (optimize_for_edge nat nat Z nat Demo.tflite_bytes
            (Scenario.ready main_config Scenario.output_disk))
     = Ok (path_join "models" "micromentor_edge.tflite").
Proof.
  split; [reflexivity|]. split; [reflexivity|].
  split; [vm_compute; reflexivity|].
  exact (proj1 (optimize_for_edge_exports nat nat Z nat Demo.tflite_bytes
                  (Scenario.ready main_config Scenario.output_disk)
                  (assembled_model nat Demo.backbone Demo.glorot) "models"
                  eq_refl eq_refl
                  ltac:(vm_compute; reflexivity)
                  ltac:(vm_compute; reflexivity)
                  ltac:(vm_compute; reflexivity))).
Defined.

(** [save_model_not_atomic] where a regular file stands at
    [models/tfjs]. *)
Lemma save_model_not_atomic_witness :
  is_file Scenario.blocked_disk (path_join "models" "tfjs") = true
  /\ is_ok (fst (save_model nat nat Z nat Demo.h5_bytes Demo.saved_model_pb
                   (Scenario.ready main_config Scenario.blocked_disk)))
     = false
  /\ files (fs nat nat nat
              (world nat nat Z nat
                 (snd (save_model nat nat Z nat Demo.h5_bytes
                         Demo.saved_model_pb
                         (Scenario.ready main_config Scenario.blocked_disk)))))
     = <[path_join "models" "micromentor_model.h5" :=
           Demo.h5_bytes (assembled_model nat Demo.backbone Demo.glorot)]>
         (files Scenario.blocked_disk).
Proof.
  split; [vm_compute; reflexivity|].
  destruct (save_model_not_atomic nat nat Z nat Demo.h5_bytes
              Demo.saved_model_pb
              (Scenario.ready main_config Scenario.blocked_disk)
              (assembled_model nat Demo.backbone Demo.glorot) "models"
              eq_refl eq_refl
              ltac:(vm_compute; reflexivity)
              ltac:(vm_compute; reflexivity)
              ltac:(vm_compute; reflexivity)
              ltac:(vm_compute; reflexivity)) as (Hraise & Hfiles & _).
  split; [exact Hraise | exact Hfiles].
Defined.

(** [configuration_not_read] on the script's configuration and on one
    without [output_path]. *)
Lemma configuration_not_read_witness :
  same_but_config nat nat Z nat
    (Scenario.ready main_config Scenario.output_disk)
    (Scenario.ready Scenario.no_output_path Scenario.output_disk)
  /\ fst (train nat nat Z nat Demo.backbone Demo.glorot Demo.next_image
            Demo.next_float Demo.next_bits Demo.fitted_dense
            Demo.fitted_base Demo.fit_history 3
            (Scenario.ready main_config Scenario.output_disk))
     = fst (train nat nat Z nat Demo.backbone Demo.glorot Demo.next_image
              Demo.next_float Demo.next_bits Demo.fitted_dense
              Demo.fitted_base Demo.fit_history 3
              (Scenario.ready Scenario.no_output_path Scenario.output_disk)).
Proof.
  assert (H : same_but_config nat nat Z nat
                (Scenario.ready main_config Scenario.output_disk)
                (Scenario.ready Scenario.no_output_path Scenario.output_disk)).
  { repeat split; reflexivity. }
  split; [exact H|].
  destruct (configuration_not_read nat nat Z nat Demo.backbone Demo.glorot
              Demo.next_image Demo.next_float Demo.next_bits
              Demo.fitted_dense Demo.fitted_base Demo.fit_history _ _ 3 H)
    as (_ & _ & [Htrain _] & _).
  exact Htrain.
Defined.

(** [train_fits_stored_model] on an assembled trainer. *)
Lemma train_fits_stored_model_witness :
  model nat Z
    (self nat nat Z nat (Scenario.ready main_config Scenario.output_disk))
  = Some (assembled_model nat Demo.backbone Demo.glorot)
  /\ compiled nat (assembled_model nat Demo.backbone Demo.glorot) <> None
  /\ exists c,
       fst (train nat nat Z nat Demo.backbone Demo.glorot Demo.next_image
              Demo.next_float Demo.next_bits Demo.fitted_dense
              Demo.fitted_base Demo.fit_history 3
              (Scenario.ready main_config Scenario.output_disk))
       = Ok (Demo.fit_history c)
       /\ fit_model nat nat c = assembled_model nat Demo.backbone Demo.glorot
       /\ length (fit_x nat nat c) = 800.
Proof.
  split; [reflexivity|]. split; [discriminate|].
  destruct (train_fits_stored_model nat nat Z nat Demo.backbone Demo.glorot
              Demo.next_image Demo.next_float Demo.next_bits
              Demo.fitted_dense Demo.fitted_base Demo.fit_history 3
              (Scenario.ready main_config Scenario.output_disk)
              (assembled_model nat Demo.backbone Demo.glorot) _
              eq_refl eq_refl)
    as (c & X & emotions & ye & yf & w1 & w2 & w3 & _ & _ & _ & _ & _ & _
        & _ & _ & _ & _ & _ & Hlen & _ & Hmodel & _ & _ & _ & Hret & _).
  exists c. split; [exact Hret|]. split; [exact Hmodel | exact Hlen].
Defined.

(** [train_twice_continues] on a fresh trainer. *)
Lemma train_twice_continues_witness :
  model nat Z
    (self nat nat Z nat (Scenario.unready main_config Scenario.output_disk))
  = None
  /\ exists c1 c2,
       fit_model nat nat c2
       = fitted_model nat nat Demo.fitted_dense Demo.fitted_base c1
       /\ fit_epochs nat nat c1 = 2%Z /\ fit_epochs nat nat c2 = 7%Z.
Proof.
  split; [reflexivity|].
  destruct (train_twice_continues nat nat Z nat Demo.backbone Demo.glorot
              Demo.next_image Demo.next_float Demo.next_bits
              Demo.fitted_dense Demo.fitted_base Demo.fit_history 2 7
              (Scenario.unready main_config Scenario.output_disk) eq_refl)
    as (c1 & c2 & _ & _ & Hcont & He1 & He2 & _).
  exists c1, c2. split; [exact Hcont|]. split; [exact He1 | exact He2].
Defined.

(** [train_keeps_architecture] on an assembled trainer. *)
Lemma train_keeps_architecture_witness :
  model nat Z
    (self nat nat Z nat (Scenario.ready main_config Scenario.output_disk))
  = Some (assembled_model nat Demo.backbone Demo.glorot)
  /\ exists m',
       model nat Z
         (self nat nat Z nat
            (snd (train nat nat Z nat Demo.backbone Demo.glorot
                    Demo.next_image Demo.next_float Demo.next_bits
                    Demo.fitted_dense Demo.fitted_base Demo.fit_history 3
                    (Scenario.ready main_config Scenario.output_disk))))
       = Some m'
       /\ output_names nat m' = [Some "emotion"; Some "fatigue"]
       /\ output_shapes nat m' = [Some [5]; Some [1]].
Proof.
  split; [reflexivity|].
  destruct (train_keeps_architecture nat nat Z nat Demo.backbone Demo.glorot
              Demo.next_image Demo.next_float Demo.next_bits
              Demo.fitted_dense Demo.fitted_base Demo.fit_history 3
              (Scenario.ready main_config Scenario.output_disk)
              (assembled_model nat Demo.backbone Demo.glorot) eq_refl)
    as (m' & Hm' & _ & Hnames & Hshapes & _).
  exists m'. split; [exact Hm'|]. split.
  - rewrite Hnames. reflexivity.
  - rewrite Hshapes. reflexivity.
Defined.

(** [main_without_config_directory] on an empty disk. *)
Lemma main_without_config_directory_witness :
  ("config" ∉ dirs Scenario.empty_disk)
  /\ fst (main nat nat Z nat Demo.backbone Demo.glorot Demo.next_image
            Demo.next_float Demo.next_bits Demo.fitted_dense Demo.fitted_base
            Demo.fit_history Demo.tflite_bytes Demo.h5_bytes
            Demo.saved_model_pb (Scenario.world_on Scenario.empty_disk))
     = Raise (FileNotFoundError "config/training_config.json").
Proof.
  assert (H : "config" ∉ dirs Scenario.empty_disk).
  { cbn. apply not_elem_of_empty. }
  split; [exact H|].
  exact (proj1 (main_without_config_directory nat nat Z nat Demo.backbone
                  Demo.glorot Demo.next_image Demo.next_float Demo.next_bits
                  Demo.fitted_dense Demo.fitted_base Demo.fit_history
                  Demo.tflite_bytes Demo.h5_bytes Demo.saved_model_pb
                  (Scenario.world_on Scenario.empty_disk) H
                  eq_refl eq_refl eq_refl)).
Defined.

(** [main_runs_to_completion] on the disk that holds only [config]. *)
Lemma main_runs_to_completion_witness :
  "config" ∈ dirs (fs nat nat nat (Demo.world_at Demo.steady_clock))
  /\ fst (main nat nat Z nat Demo.backbone Demo.glorot Demo.next_image
            Demo.next_float Demo.next_bits Demo.fitted_dense Demo.fitted_base
            Demo.fit_history Demo.tflite_bytes Demo.h5_bytes
            Demo.saved_model_pb (Demo.world_at Demo.steady_clock))
     = Ok tt.
Proof.
  assert (Hdir : "config" ∈ dirs (fs nat nat nat (Demo.world_at Demo.steady_clock))).
  { cbn. apply elem_of_singleton. reflexivity. }
  assert (Hnot : forall p, p <> "config" ->
            p ∉ dirs (fs nat nat nat (Demo.world_at Demo.steady_clock))).
  { intros p Hp Hin. cbn in Hin. apply elem_of_singleton in Hin. contradiction. }
  split; [exact Hdir|].
  destruct (main_runs_to_completion nat nat Z nat Demo.backbone Demo.glorot
              Demo.next_image Demo.next_float Demo.next_bits
              Demo.fitted_dense Demo.fitted_base Demo.fit_history
              Demo.tflite_bytes Demo.h5_bytes Demo.saved_model_pb
              (Demo.world_at Demo.steady_clock) Hdir
              eq_refl eq_refl eq_refl
              (Hnot "config/training_config.json" ltac:(discriminate))
              (Hnot "models/micromentor_edge.tflite" ltac:(discriminate))
              (Hnot "models/micromentor_model.h5" ltac:(discriminate))
              (Hnot "models/tfjs/saved_model.pb" ltac:(discriminate)))
    as (c & x & _ & _ & _ & _ & Hret & _).
  exact Hret.
Defined.

(** [data_training_benchmark_keep_files] on a trainer with the assembled
    model stored and the output directory on disk. *)
Lemma data_training_benchmark_keep_files_witness :
  model nat Z
    (self nat nat Z nat (Scenario.ready main_config Scenario.output_disk))
  = Some (assembled_model nat Demo.backbone Demo.glorot)
  /\ fs nat nat nat
       (world nat nat Z nat
          (snd (train nat nat Z nat Demo.backbone Demo.glorot Demo.next_image
                  Demo.next_float Demo.next_bits Demo.fitted_dense
                  Demo.fitted_base Demo.fit_history 2
                  (Scenario.ready main_config Scenario.output_disk))))
     = Scenario.output_disk.
Proof.
  split; [reflexivity|].
  exact (proj2 (proj2
           (data_training_benchmark_keep_files nat nat Z nat Demo.backbone
              Demo.glorot Demo.next_image Demo.next_float Demo.next_bits
              Demo.fitted_dense Demo.fitted_base Demo.fit_history
              (Scenario.ready main_config Scenario.output_disk) 2))
           (assembled_model nat Demo.backbone Demo.glorot) eq_refl).
Defined.
